(** * tokenizer-lab: the two scripts [verify_unk_bert.py] and [create_token.py]

    A shallow embedding of the repository's two Python scripts.  Each script
    is a tree of observable actions: calls into the [transformers] library
    and [print] calls.  The library, the model hub and the file system are
    an arbitrary environment that answers every call with a value or with a
    raised exception, and may change its state with every answer.

    Conventions of the model:
    - every exception the environment raises is an instance of [Exception];
    - [print] does not fail;
    - Python's [int] is [Z], its [float] is IEEE 754 binary64, taken from
      the executable specification [SpecFloat] of the standard library;
    - a string is its UTF-8 bytes. *)

From Stdlib Require Import ZArith List String Ascii Bool Lia.
From Stdlib Require Import Floats.SpecFloat Floats.PrimFloat Floats.FloatOps.
From Stdlib Require Uint63.
From Stdlib Require DecimalString.
Import ListNotations.

Local Open Scope string_scope.
Local Open Scope list_scope.

(* ================================================================== *)
(** ** The Python run time the scripts rely on *)

(** *** Exceptions

    Everything the library raises is an instance of [Exception]; the one
    distinction the scripts make is [except ImportError]. *)

Inductive exc_class : Type :=
| ImportError
| OtherError.

Record exn : Type := mk_exn {
  exn_class : exc_class;
  exn_str : string          (* str(e), what an f-string prints for e *)
}.

Definition isinstance_ImportError (e : exn) : bool :=
  match exn_class e with ImportError => true | OtherError => false end.

(** [except Exception] matches every exception of the model. *)
Definition isinstance_Exception (e : exn) : bool := true.

Inductive result (A : Type) : Type :=
| Ok (a : A)
| Raise (e : exn).
Arguments Ok {A} a.
Arguments Raise {A} e.

(** *** Strings and formatting *)

Definition nl : string := String (ascii_of_nat 10) "".

(** [c * n] for a one-character string [c]. *)
Fixpoint str_mul (c : string) (n : nat) : string :=
  match n with
  | O => ""
  | S n' => c ++ str_mul c n'
  end.

(** [str(z)] for an [int]. *)
Definition str_of_int (z : Z) : string :=
  DecimalString.NilZero.string_of_int (Z.to_int z).

(** [s.rjust(width)], the padding of the format specs [5d]. *)
Definition rjust (width : nat) (s : string) : string :=
  str_mul " " (width - String.length s) ++ s.

Definition format_5d (z : Z) : string := rjust 5 (str_of_int z).

(** [s.zfill(width)] on a digit string. *)
Definition zfill (width : nat) (s : string) : string :=
  str_mul "0" (width - String.length s) ++ s.

(** The lines a [print(s)] call adds to standard output: [s] is followed by
    a newline, so the text splits at the newlines inside [s]. *)
Fixpoint split_lines (s : string) : list string :=
  match s with
  | EmptyString => [""]
  | String c s' =>
      if Ascii.eqb c (ascii_of_nat 10) then "" :: split_lines s'
      else match split_lines s' with
           | l :: ls => String c l :: ls
           | [] => [String c ""]
           end
  end.

(** *** Floats: IEEE 754 binary64 *)

Definition prec : Z := 53.
Definition emax : Z := 1024.

Definition float : Type := spec_float.

Definition float_zero : float := S754_zero false.

(** An [int] as the exact dyadic number [z * 2^0]. *)
Definition exact_of_int (z : Z) : float :=
  match z with
  | Z0 => S754_zero false
  | Zpos p => S754_finite false p 0
  | Zneg p => S754_finite true p 0
  end.

(** [float(z)]: the nearest binary64 number. *)
Definition float_of_int (z : Z) : float := binary_normalize prec emax z 0 false.

(** [a / b] on two [int]s with [b <> 0]: CPython's [long_true_divide], the
    correctly rounded quotient of the two integers. *)
Definition int_true_div (a b : Z) : float :=
  SFdiv prec emax (exact_of_int a) (exact_of_int b).

(** [x * k] for a float [x] and an [int] [k]. *)
Definition float_mul_int (x : float) (k : Z) : float :=
  SFmul prec emax x (float_of_int k).

(** [x > 0] on floats. *)
Definition float_gt_zero (x : float) : bool := SFltb float_zero x.

(** The same percentage on the machine's binary64 numbers, for counts below
    [2^53]: both integers convert exactly, then one division and one
    multiplication. *)
Definition machine_percentage (c n : Z) : float :=
  Prim2SF (PrimFloat.mul
             (PrimFloat.div (PrimFloat.of_uint63 (Uint63.of_Z c))
                            (PrimFloat.of_uint63 (Uint63.of_Z n)))
             (PrimFloat.of_uint63 (Uint63.of_Z 100))).

(** Round [num / den] to the nearest integer, ties to even ([0 < den]). *)
Definition round_half_even (num den : Z) : Z :=
  let q := (num / den)%Z in
  let r := (num mod den)%Z in
  match (2 * r ?= den)%Z with
  | Lt => q
  | Gt => (q + 1)%Z
  | Eq => if Z.even q then q else (q + 1)%Z
  end.

(** The digits of [n / 10^d] with [d] decimals ([0 <= n]). *)
Definition fixed_digits (d : nat) (n : Z) : string :=
  let p := (10 ^ Z.of_nat d)%Z in
  str_of_int (n / p) ++
  match d with
  | O => ""
  | S _ => "." ++ zfill d (str_of_int (n mod p))
  end.

(** The format spec [.df]: the exact value of the float, correctly rounded
    to [d] decimals. *)
Definition format_f (d : nat) (x : float) : string :=
  let sign (s : bool) := if s then "-" else "" in
  match x with
  | S754_nan => "nan"
  | S754_infinity s => sign s ++ "inf"
  | S754_zero s => sign s ++ fixed_digits d 0
  | S754_finite s m e =>
      let scaled :=
        match e with
        | Zneg p => round_half_even (Zpos m * 10 ^ Z.of_nat d) (2 ^ Zpos p)
        | _ => (Zpos m * 2 ^ e * 10 ^ Z.of_nat d)%Z
        end in
      sign s ++ fixed_digits d scaled
  end.

(* ================================================================== *)
(** ** Scripts as trees of observable actions *)

Section Programs.

(** The calls a script makes into its environment; [E X] is a call whose
    answer has type [X]. *)
Variable E : Type -> Type.

Inductive prog (R : Type) : Type :=
| Ret (r : R)                                   (* fall through with a value *)
| Throw (e : exn)                               (* an exception in flight *)
| Exit (code : Z)                               (* exit(code) *)
| Print (s : string) (k : prog R)               (* print(s), then k *)
| Call (X : Type) (ev : E X) (k : result X -> prog R).

Arguments Ret {R} r.
Arguments Throw {R} e.
Arguments Exit {R} code.
Arguments Print {R} s k.
Arguments Call {R X} ev k.

Fixpoint bind {A B : Type} (p : prog A) (f : A -> prog B) : prog B :=
  match p with
  | Ret a => f a
  | Throw e => Throw e
  | Exit c => Exit c
  | Print s k => Print s (bind k f)
  | Call ev k => Call ev (fun r => bind (k r) f)
  end.

(** [try: p  except <class> as e: handler e]. *)
Fixpoint try_except {A : Type} (p : prog A) (matches : exn -> bool)
         (handler : exn -> prog A) : prog A :=
  match p with
  | Ret a => Ret a
  | Throw e => if matches e then handler e else Throw e
  | Exit c => Exit c
  | Print s k => Print s (try_except k matches handler)
  | Call ev k => Call ev (fun r => try_except (k r) matches handler)
  end.

(** A value or an exception computed by a handle's method. *)
Definition lift {A : Type} (r : result A) : prog A :=
  match r with
  | Ok a => Ret a
  | Raise e => Throw e
  end.

Definition call {X : Type} (ev : E X) : prog X := Call ev lift.

Definition print (s : string) : prog unit := Print s (Ret tt).

Fixpoint print_all (ls : list string) : prog unit :=
  match ls with
  | [] => Ret tt
  | l :: rest => Print l (print_all rest)
  end.

(** *** Running a script against an environment *)

Inductive action : Type :=
| Printed (s : string)
| Called (X : Type) (ev : E X) (r : result X).

Inductive outcome (R : Type) : Type :=
| Returned (r : R)
| Raised (e : exn)
| Exited (code : Z).

(** The environment: a world state and its answer to each call. *)
Variable World : Type.
Variable respond : forall X : Type, E X -> World -> result X * World.

Fixpoint run {R : Type} (p : prog R) (w : World)
  : outcome R * World * list action :=
  match p with
  | Ret r => (Returned R r, w, [])
  | Throw e => (Raised R e, w, [])
  | Exit c => (Exited R c, w, [])
  | Print s k =>
      let '(o, w', log) := run k w in (o, w', Printed s :: log)
  | Call ev k =>
      let (r, w1) := respond _ ev w in
      let '(o, w', log) := run (k r) w1 in (o, w', Called _ ev r :: log)
  end.

(** Sequencing and exception handling on the results of [run]. *)
Definition and_then {A B : Type} (x : outcome A * World * list action)
           (k : A -> World -> outcome B * World * list action)
  : outcome B * World * list action :=
  match x with
  | (Returned _ a, w, log) => let '(o, w', log') := k a w in (o, w', log ++ log')
  | (Raised _ e, w, log) => (Raised B e, w, log)
  | (Exited _ c, w, log) => (Exited B c, w, log)
  end.

Definition or_else {A : Type} (x : outcome A * World * list action)
           (matches : exn -> bool)
           (k : exn -> World -> outcome A * World * list action)
  : outcome A * World * list action :=
  match x with
  | (Raised _ e, w, log) =>
      if matches e then let '(o, w', log') := k e w in (o, w', log ++ log')
      else (Raised A e, w, log)
  | other => other
  end.

Definition outcome_of {R : Type} (x : outcome R * World * list action) : outcome R :=
  fst (fst x).
Definition world_of {R : Type} (x : outcome R * World * list action) : World :=
  snd (fst x).
Definition log_of {R : Type} (x : outcome R * World * list action) : list action :=
  snd x.

(** The status of the process: 0 when the module body falls off its end,
    the argument of [exit], 1 for an uncaught exception. *)
Definition exit_status {R : Type} (o : outcome R) : Z :=
  match o with
  | Returned _ _ => 0%Z
  | Raised _ _ => 1%Z
  | Exited _ c => c
  end.

(** The payloads of the [print] calls, and the lines of standard output. *)
Definition printed (log : list action) : list string :=
  flat_map (fun a => match a with Printed s => [s] | Called _ _ _ => [] end) log.

Definition stdout_lines (log : list action) : list string :=
  flat_map split_lines (printed log).

End Programs.

Arguments Ret {E R} r.
Arguments Throw {E R} e.
Arguments Exit {E R} code.
Arguments Print {E R} s k.
Arguments Call {E R X} ev k.
Arguments bind {E A B} p f.
Arguments try_except {E A} p matches handler.
Arguments lift {E A} r.
Arguments call {E X} ev.
Arguments print {E} s.
Arguments print_all {E} ls.
Arguments Printed {E} s.
Arguments Called {E X} ev r.
Arguments Returned {R} r.
Arguments Raised {R} e.
Arguments Exited {R} code.
Arguments run {E World} respond {R} p w.
Arguments and_then {E World A B} x k.
Arguments or_else {E World A} x matches k.
Arguments outcome_of {E World R} x.
Arguments world_of {E World R} x.
Arguments log_of {E World R} x.
Arguments exit_status {R} o.
Arguments printed {E} log.
Arguments stdout_lines {E} log.

Declare Scope prog_scope.
Delimit Scope prog_scope with prog.
Notation "x <- p ;; q" := (bind p (fun x => q))
  (at level 61, p at next level, right associativity) : prog_scope.
Notation "p ;; q" := (bind p (fun _ => q))
  (at level 61, right associativity) : prog_scope.
Local Open Scope prog_scope.

(* ================================================================== *)
(** ** verify_unk_bert.py *)

(** The tokenizer handle [AutoTokenizer.from_pretrained] returns: the two
    attributes and the two methods the script uses. *)
Record Tokenizer : Type := {
  unk_token : string;
  unk_token_id : Z;
  encode : string -> bool -> result (list Z);   (* encode(text, add_special_tokens) *)
  convert_ids_to_tokens : list Z -> result (list string)
}.

Inductive verifyE : Type -> Type :=
| Import_AutoTokenizer : verifyE unit           (* from transformers import AutoTokenizer *)
| AutoTokenizer_from_pretrained (model_name : string) : verifyE Tokenizer.

(** The dictionary [test_tokenizer] returns. *)
Record stats : Type := {
  model : string;
  language : string;
  token_count : Z;
  unk_count : Z;
  unk_percentage : float
}.

(** The same dictionary once [main] has stored the key ['expect_unk']. *)
Record result_entry : Type := {
  measured : stats;
  expect_unk : bool
}.

Record test_case : Type := {
  tc_model : string;
  tc_text : string;
  tc_language : string;
  tc_expect_unk : bool
}.

Definition rule60 : string := str_mul "=" 60.

(** [sum(1 for t in tokens if t == unk_token)] *)
Definition count_unk (tokens : list string) (unk : string) : Z :=
  fold_left Z.add (map (fun _ => 1%Z) (filter (fun t => String.eqb t unk) tokens)) 0%Z.

(** [(unk_count / len(tokens) * 100) if tokens else 0]; the [int] 0 of the
    empty case is the float zero ([0 == 0.0], and both print as [0.00]). *)
Definition percentage_of (unk_count : Z) (tokens : list string) : float :=
  match tokens with
  | [] => float_zero
  | _ :: _ => float_mul_int (int_true_div unk_count (Z.of_nat (List.length tokens))) 100
  end.

Fixpoint enumerate {A : Type} (start : nat) (l : list A) : list (nat * A) :=
  match l with
  | [] => []
  | a :: rest => (start, a) :: enumerate (S start) rest
  end.

Definition token_line (unk : string) (entry : nat * (Z * string)) : string :=
  let '(i, (token_id, token)) := entry in
  let unk_marker := if String.eqb token unk then " ⬅️ UNK" else "" in
  "  [" ++ str_of_int (Z.of_nat i) ++ "] ID=" ++ format_5d token_id
    ++ " → '" ++ token ++ "'" ++ unk_marker.

Definition test_tokenizer (model_name text language : string) : prog verifyE stats :=
  print (nl ++ rule60) ;;
  print ("Model: " ++ model_name) ;;
  print ("Language: " ++ language) ;;
  print ("Text: " ++ text) ;;
  print rule60 ;;
  tokenizer <- call (AutoTokenizer_from_pretrained model_name) ;;
  let unk := unk_token tokenizer in
  let unk_id := unk_token_id tokenizer in
  print (nl ++ "UNK Token: '" ++ unk ++ "' (ID: " ++ str_of_int unk_id ++ ")") ;;
  encoded <- lift (encode tokenizer text false) ;;
  tokens <- lift (convert_ids_to_tokens tokenizer encoded) ;;
  let count := count_unk tokens unk in
  let percentage := percentage_of count tokens in
  print (nl ++ "Results:") ;;
  print ("  Total tokens: " ++ str_of_int (Z.of_nat (List.length tokens))) ;;
  print ("  UNK count: " ++ str_of_int count) ;;
  print ("  UNK percentage: " ++ format_f 2 percentage ++ "%") ;;
  print (nl ++ "First 20 tokens:") ;;
  print_all (map (token_line unk)
               (enumerate 0 (combine (firstn 20 encoded) (firstn 20 tokens)))) ;;
  (if (20 <? List.length tokens)%nat
   then print ("  ... (" ++ str_of_int (Z.of_nat (List.length tokens) - 20) ++ " more tokens)")
   else Ret tt) ;;
  Ret {| model := model_name;
         language := language;
         token_count := Z.of_nat (List.length tokens);
         unk_count := count;
         unk_percentage := percentage |}.

Definition test_cases : list test_case :=
  [ {| tc_model := "bert-base-uncased";
       tc_text := "नमस्ते दुनिया। यह एक परीक्षण है।";
       tc_language := "Hindi (Devanagari)";
       tc_expect_unk := true |};
    {| tc_model := "bert-base-uncased";
       tc_text := "ಹಲೋ ಜಗತ್ತು। ಇದು ಒಂದು ಪರೀಕ್ಷೆ.";
       tc_language := "Kannada";
       tc_expect_unk := true |};
    {| tc_model := "bert-base-uncased";
       tc_text := "வணக்கம் உலகம். இது ஒரு சோதனை.";
       tc_language := "Tamil";
       tc_expect_unk := true |};
    {| tc_model := "bert-base-uncased";
       tc_text := "Hello world. This is a test.";
       tc_language := "English";
       tc_expect_unk := false |};
    {| tc_model := "bert-base-multilingual-uncased";
       tc_text := "नमस्ते दुनिया। यह एक परीक्षण है।";
       tc_language := "Hindi (Devanagari)";
       tc_expect_unk := false |} ].

(** One iteration of [for test_case in test_cases], on the list [results]
    accumulated so far. *)
Definition loop_body (results : list result_entry) (tc : test_case)
  : prog verifyE (list result_entry) :=
  try_except
    (r <- test_tokenizer (tc_model tc) (tc_text tc) (tc_language tc) ;;
     Ret (results ++ [ {| measured := r; expect_unk := tc_expect_unk tc |} ]))
    isinstance_Exception
    (fun e => print (nl ++ "❌ ERROR: " ++ exn_str e) ;; Ret results).

Fixpoint for_test_cases (cases : list test_case) (results : list result_entry)
  : prog verifyE (list result_entry) :=
  match cases with
  | [] => Ret results
  | tc :: rest =>
      results' <- loop_body results tc ;;
      for_test_cases rest results'
  end.

Definition has_unk (r : result_entry) : bool := (0 <? unk_count (measured r))%Z.

Definition status (r : result_entry) : string :=
  if Bool.eqb (has_unk r) (expect_unk r) then "✅ PASS" else "❌ FAIL".

(** The four [print] calls of one iteration of [for result in results]. *)
Definition summary_entry (r : result_entry) : list string :=
  let expect := if expect_unk r then "Should have UNK" else "Should NOT have UNK" in
  [ (status r ++ " " ++ model (measured r) ++ " on " ++ language (measured r))%string;
    ("     Tokens: " ++ str_of_int (token_count (measured r))
      ++ ", UNK: " ++ str_of_int (unk_count (measured r))
      ++ " (" ++ format_f 1 (unk_percentage (measured r)) ++ "%)")%string;
    ("     Expected: " ++ expect ++ ", Got: "
      ++ (if has_unk r then "UNK found" else "No UNK"))%string;
    "" ].

Fixpoint for_results (results : list result_entry) : prog verifyE unit :=
  match results with
  | [] => Ret tt
  | r :: rest => print_all (summary_entry r) ;; for_results rest
  end.

Definition summary_header : list string :=
  [ (nl ++ nl ++ rule60)%string; "📊 SUMMARY"; (rule60 ++ nl)%string ].

Definition summary_footer : list string :=
  [ rule60;
    "✅ Verification complete!";
    (nl ++ "Compare these results with your JavaScript implementation.")%string;
    "BERT-base-uncased should show high UNK% on Hindi/Kannada/Tamil." ].

(** The summary part of [main], on the accumulated [results]. *)
Definition summary (results : list result_entry) : prog verifyE unit :=
  print_all summary_header ;;
  for_results results ;;
  print_all summary_footer.

(** [main] returns [None]; the model returns the list [results] it built,
    so that statements can speak about it. *)
Definition main : prog verifyE (list result_entry) :=
  print "🔍 UNK Token Detection Verification Script" ;;
  print rule60 ;;
  results <- for_test_cases test_cases [] ;;
  summary results ;;
  Ret results.

(** The module body, run as a script ([__name__ == '__main__']). *)
Definition verify_unk_bert : prog verifyE unit :=
  try_except (call Import_AutoTokenizer) isinstance_ImportError
    (fun _ =>
       print "ERROR: transformers not installed" ;;
       print "Install with: pip install transformers" ;;
       Exit 1%Z) ;;
  main ;;
  Ret tt.

(* ================================================================== *)
(** ** create_token.py *)

Section CreateToken.

(** The objects of the [transformers] library are opaque handles. *)
Variables BertTokenizer BertTokenizerFast BertModel : Type.
Variables BatchEncoding ModelOutput Tensor : Type.

(** [str(inputs)], [outputs.last_hidden_state] and [str] of a tensor. *)
Variable str_BatchEncoding : BatchEncoding -> string.
Variable last_hidden_state : ModelOutput -> Tensor.
Variable str_Tensor : Tensor -> string.

Inductive createE : Type -> Type :=
| Import_transformers : createE unit
| BertTokenizer_from_pretrained (name : string) : createE BertTokenizer
| BertTokenizerFast_from_pretrained (name_or_path : string) : createE BertTokenizerFast
| save_pretrained (tok : BertTokenizerFast) (path : string) : createE unit
| BertModel_from_pretrained (name : string) : createE BertModel
| tokenizer_call (tok : BertTokenizerFast) (text return_tensors : string)
  : createE BatchEncoding
| model_call (m : BertModel) (inputs : BatchEncoding) : createE ModelOutput.

Definition model_id : string := "google/muril-base-cased".
Definition local_dir : string := "./muril-fast-tokenizer".
Definition sample_text : string := "यह एक परीक्षण वाक्य है।".

(** The module body of create_token.py. *)
Definition create_token : prog createE unit :=
  call Import_transformers ;;
  slow_tokenizer <- call (BertTokenizer_from_pretrained model_id) ;;
  fast_tokenizer <- call (BertTokenizerFast_from_pretrained model_id) ;;
  call (save_pretrained fast_tokenizer local_dir) ;;
  tokenizer <- call (BertTokenizerFast_from_pretrained local_dir) ;;
  model <- call (BertModel_from_pretrained model_id) ;;
  let text := sample_text in
  inputs <- call (tokenizer_call tokenizer text "pt") ;;
  outputs <- call (model_call model inputs) ;;
  print ("Tokenized input: " ++ str_BatchEncoding inputs) ;;
  print ("Model output (last hidden state): "
           ++ str_Tensor (last_hidden_state outputs)).

(** The steps of the script, without the handles that flow between them. *)
Inductive step : Type :=
| ImportLibrary
| LoadReferenceTokenizer (name : string)
| LoadFastTokenizer (name_or_path : string)
| SaveFastTokenizer (path : string)
| LoadModel (name : string)
| EncodeText (text : string)
| RunModel
| PrintLine.

Definition step_of (a : action createE) : step :=
  match a with
  | Printed _ => PrintLine
  | Called ev _ =>
      match ev with
      | Import_transformers => ImportLibrary
      | BertTokenizer_from_pretrained name => LoadReferenceTokenizer name
      | BertTokenizerFast_from_pretrained name_or_path => LoadFastTokenizer name_or_path
      | save_pretrained _ path => SaveFastTokenizer path
      | BertModel_from_pretrained name => LoadModel name
      | tokenizer_call _ text _ => EncodeText text
      | model_call _ _ => RunModel
      end
  end.

Definition script_steps : list step :=
  [ ImportLibrary;
    LoadReferenceTokenizer model_id;
    LoadFastTokenizer model_id;
    SaveFastTokenizer local_dir;
    LoadFastTokenizer local_dir;
    LoadModel model_id;
    EncodeText sample_text;
    RunModel;
    PrintLine;
    PrintLine ].

(** The run in which every call succeeds, with the handles it got. *)
Definition transcript (slow : BertTokenizer) (fast tok : BertTokenizerFast)
           (bert : BertModel) (inputs : BatchEncoding) (outputs : ModelOutput)
  : list (action createE) :=
  [ Called Import_transformers (Ok tt);
    Called (BertTokenizer_from_pretrained model_id) (Ok slow);
    Called (BertTokenizerFast_from_pretrained model_id) (Ok fast);
    Called (save_pretrained fast local_dir) (Ok tt);
    Called (BertTokenizerFast_from_pretrained local_dir) (Ok tok);
    Called (BertModel_from_pretrained model_id) (Ok bert);
    Called (tokenizer_call tok sample_text "pt") (Ok inputs);
    Called (model_call bert inputs) (Ok outputs);
    Printed ("Tokenized input: " ++ str_BatchEncoding inputs);
    Printed ("Model output (last hidden state): "
               ++ str_Tensor (last_hidden_state outputs)) ].

(** The exceptions the environment raised during a run. *)
Definition failures (log : list (action createE)) : list exn :=
  flat_map (fun a => match a with
                     | Called _ (Raise e) => [e]
                     | _ => []
                     end) log.

End CreateToken.

Arguments Import_transformers {BertTokenizer BertTokenizerFast BertModel BatchEncoding ModelOutput}.
Arguments BertTokenizer_from_pretrained {BertTokenizer BertTokenizerFast BertModel BatchEncoding ModelOutput} name.
Arguments BertTokenizerFast_from_pretrained {BertTokenizer BertTokenizerFast BertModel BatchEncoding ModelOutput} name_or_path.
Arguments save_pretrained {BertTokenizer BertTokenizerFast BertModel BatchEncoding ModelOutput} tok path.
Arguments BertModel_from_pretrained {BertTokenizer BertTokenizerFast BertModel BatchEncoding ModelOutput} name.
Arguments tokenizer_call {BertTokenizer BertTokenizerFast BertModel BatchEncoding ModelOutput} tok text return_tensors.
Arguments model_call {BertTokenizer BertTokenizerFast BertModel BatchEncoding ModelOutput} m inputs.
Arguments create_token {BertTokenizer BertTokenizerFast BertModel BatchEncoding ModelOutput Tensor} str_BatchEncoding last_hidden_state str_Tensor.
Arguments step_of {BertTokenizer BertTokenizerFast BertModel BatchEncoding ModelOutput} a.
Arguments transcript {BertTokenizer BertTokenizerFast BertModel BatchEncoding ModelOutput Tensor} str_BatchEncoding last_hidden_state str_Tensor slow fast tok bert inputs outputs.
Arguments failures {BertTokenizer BertTokenizerFast BertModel BatchEncoding ModelOutput} log.

(** *** A small environment to run the script on

    Every handle is a string that names it; the world counts the calls
    answered so far, and the call number [fail_at] fails. *)
Definition scripted (fail_at : nat) (X : Type)
           (ev : createE string string string string string X) (w : nat)
  : result X * nat :=
  if Nat.eqb w fail_at then (Raise (mk_exn OtherError "failed"), S w)
  else
    (match ev in createE _ _ _ _ _ T return result T with
     | Import_transformers => Ok tt
     | BertTokenizer_from_pretrained name => Ok ("BertTokenizer(" ++ name ++ ")")%string
     | BertTokenizerFast_from_pretrained name_or_path =>
         Ok ("BertTokenizerFast(" ++ name_or_path ++ ")")%string
     | save_pretrained _ _ => Ok tt
     | BertModel_from_pretrained name => Ok ("BertModel(" ++ name ++ ")")%string
     | tokenizer_call _ _ _ => Ok "{'input_ids': tensor([[104, 1, 2, 105]])}"
     | model_call _ _ => Ok "tensor([[[0.1, 0.2]]])"
     end, S w).

Definition create_token_scripted : prog (createE string string string string string) unit :=
  create_token (fun s => s) (fun s => s) (fun s => s).

(* ================================================================== *)
(** ** Definitions used by the statements *)

(** The percentage as the specification words it: the number of tokens
    equal to the unknown-token string, divided by the total number of
    tokens, times 100; 0 when there is no token. *)
Definition spec_percentage (tokens : list string) (unk : string) : float :=
  let total := Z.of_nat (List.length tokens) in
  let unknown := Z.of_nat (count_occ string_dec tokens unk) in
  if (total =? 0)%Z then float_zero
  else float_mul_int (int_true_div unknown total) 100.

(** The positions of [tokens] that hold the string [unk]. *)
Definition unk_positions (tokens : list string) (unk : string) : list nat :=
  filter (fun i => String.eqb (nth i tokens "") unk) (seq 0 (List.length tokens)).

(** A float above zero: [+inf], or a positive finite number whose exponent
    is not below that of the subnormals. *)
Definition positive_float (x : float) : Prop :=
  match x with
  | S754_finite false _ e => (-1074 <= e)%Z
  | S754_infinity false => True
  | _ => False
  end.

(** [sys.maxsize] of a 64-bit CPython: no list is longer. *)
Definition sys_maxsize : Z := (2 ^ 63 - 1)%Z.

(** What [test_tokenizer] prints before it asks for the tokenizer. *)
Definition banner (model_name text language : string) : list string :=
  [ (nl ++ rule60)%string;
    ("Model: " ++ model_name)%string;
    ("Language: " ++ language)%string;
    ("Text: " ++ text)%string;
    rule60 ].

Definition unk_info (tk : Tokenizer) : string :=
  nl ++ "UNK Token: '" ++ unk_token tk ++ "' (ID: " ++ str_of_int (unk_token_id tk) ++ ")".

(** What it prints once the tokens are known. *)
Definition report (tk : Tokenizer) (ids : list Z) (tokens : list string) : list string :=
  [ (nl ++ "Results:")%string;
    ("  Total tokens: " ++ str_of_int (Z.of_nat (List.length tokens)))%string;
    ("  UNK count: " ++ str_of_int (count_unk tokens (unk_token tk)))%string;
    ("  UNK percentage: "
       ++ format_f 2 (percentage_of (count_unk tokens (unk_token tk)) tokens) ++ "%")%string;
    (nl ++ "First 20 tokens:")%string ]
  ++ map (token_line (unk_token tk))
       (enumerate 0 (combine (firstn 20 ids) (firstn 20 tokens)))
  ++ (if (20 <? List.length tokens)%nat
      then [ ("  ... (" ++ str_of_int (Z.of_nat (List.length tokens) - 20)
                ++ " more tokens)")%string ]
      else []).

(** The dictionary returned for the tokens [tokens] of the handle [tk]. *)
Definition stats_of (model_name language : string) (tk : Tokenizer)
           (tokens : list string) : stats :=
  {| model := model_name;
     language := language;
     token_count := Z.of_nat (List.length tokens);
     unk_count := count_unk tokens (unk_token tk);
     unk_percentage := percentage_of (count_unk tokens (unk_token tk)) tokens |}.

Section Processed.

Variable World : Type.
Variable respond : forall X : Type, verifyE X -> World -> result X * World.

(** [processed tc tk ids tokens r]: from some state of the world,
    [test_tokenizer] on the case [tc] was given the handle [tk], encoded
    the text to [ids], converted them to [tokens] and returned [r]. *)
Definition processed (tc : test_case) (tk : Tokenizer) (ids : list Z)
           (tokens : list string) (r : stats) : Prop :=
  exists (w w' : World) (log : list (action verifyE)),
    respond _ (AutoTokenizer_from_pretrained (tc_model tc)) w = (Ok tk, w') /\
    encode tk (tc_text tc) false = Ok ids /\
    convert_ids_to_tokens tk ids = Ok tokens /\
    run respond (test_tokenizer (tc_model tc) (tc_text tc) (tc_language tc)) w
      = (Returned r, w', log).

(** [recorded cases e]: the entry [e] of the list [results] comes from
    processing one of [cases], and carries that case's expectation. *)
Definition recorded (cases : list test_case) (e : result_entry) : Prop :=
  exists (tc : test_case) (tk : Tokenizer) (ids : list Z) (tokens : list string),
    In tc cases /\
    processed tc tk ids tokens (measured e) /\
    expect_unk e = tc_expect_unk tc.

End Processed.

Arguments processed {World} respond tc tk ids tokens r.
Arguments recorded {World} respond cases e.

(** *** A small environment to run the script on

    A tokenizer whose vocabulary is the ASCII characters: one token per
    byte of the text, every byte outside ASCII is unknown. *)
Definition ascii_ids (text : string) : list Z :=
  map (fun c => Z.of_nat (nat_of_ascii c)) (list_ascii_of_string text).

Definition ascii_tokens (ids : list Z) : list string :=
  map (fun id => if (id <? 128)%Z
                 then String (ascii_of_nat (Z.to_nat id)) ""
                 else "[UNK]") ids.

Definition ascii_tokenizer : Tokenizer :=
  {| unk_token := "[UNK]";
     unk_token_id := 100%Z;
     encode := fun text _ => Ok (ascii_ids text);
     convert_ids_to_tokens := fun ids => Ok (ascii_tokens ids) |}.

(** A hub that hands out [ascii_tokenizer] for every name, except that its
    second answer is a connection error; the world counts its answers. *)
Definition flaky_hub (X : Type) (ev : verifyE X) (w : nat) : result X * nat :=
  match ev in verifyE T return result T * nat with
  | Import_AutoTokenizer => (Ok tt, w)
  | AutoTokenizer_from_pretrained _ =>
      (if Nat.eqb w 1 then Raise (mk_exn OtherError "Connection error")
       else Ok ascii_tokenizer, S w)
  end.

(** An installation without the [transformers] package. *)
Definition no_transformers (X : Type) (ev : verifyE X) (w : nat) : result X * nat :=
  match ev in verifyE T return result T * nat with
  | Import_AutoTokenizer =>
      (Raise (mk_exn ImportError "No module named 'transformers'"), w)
  | AutoTokenizer_from_pretrained _ => (Ok ascii_tokenizer, S w)
  end.

(** The model names the script asked the hub for, in order. *)
Definition requested (log : list (action verifyE)) : list string :=
  flat_map (fun a =>
              match a with
              | Called ev _ =>
                  match ev with
                  | AutoTokenizer_from_pretrained name => [name]
                  | Import_AutoTokenizer => []
                  end
              | Printed _ => []
              end) log.

(** A string that [print] puts on one line. *)
Fixpoint no_newline (s : string) : bool :=
  match s with
  | EmptyString => true
  | String c s' => negb (Ascii.eqb c (ascii_of_nat 10)) && no_newline s'
  end.

Definition pass_mark : string := "✅ PASS".
Definition fail_mark : string := "❌ FAIL".

(** The [i]-th test case. *)
Definition case (i : nat) : test_case :=
  nth i test_cases
      {| tc_model := ""; tc_text := ""; tc_language := ""; tc_expect_unk := false |}.

(** An entry as the English case records it when no token is unknown. *)
Definition english_entry : result_entry :=
  {| measured := {| model := "bert-base-uncased";
                    language := "English";
                    token_count := 28%Z;
                    unk_count := 0%Z;
                    unk_percentage := float_zero |};
     expect_unk := false |}.

(** What the handler of the loop in [main] prints for the exception [e]. *)
Definition error_report (e : exn) : string := nl ++ "❌ ERROR: " ++ exn_str e.

(* ================================================================== *)
(** ** Definitions for further properties of the scripts *)

(** The division of Python, which raises on a zero divisor. *)
Definition ZeroDivisionError : exn := mk_exn OtherError "division by zero".

Definition py_truediv (a b : Z) : result float :=
  if (b =? 0)%Z then Raise ZeroDivisionError else Ok (int_true_div a b).

(** [(unk_count / len(tokens) * 100) if tokens else 0], with the division
    that can raise. *)
Definition percentage_checked (unk_count : Z) (tokens : list string) : result float :=
  match tokens with
  | [] => Ok float_zero
  | _ :: _ =>
      match py_truediv unk_count (Z.of_nat (List.length tokens)) with
      | Ok q => Ok (float_mul_int q 100)
      | Raise e => Raise e
      end
  end.

(** The exact value of a float is at most the integer [k]. *)
Definition float_le_int (x : float) (k : Z) : Prop :=
  match x with
  | S754_zero _ => (0 <= k)%Z
  | S754_finite false m e =>
      match e with
      | Zneg p => (Zpos m <= k * 2 ^ Zpos p)%Z
      | _ => (Zpos m * 2 ^ e <= k)%Z
      end
  | S754_finite true _ _ => (0 <= k)%Z
  | S754_infinity s => s = true
  | S754_nan => False
  end.

(** The exact value of a float is at least 0. *)
Definition float_nonneg (x : float) : Prop :=
  match x with
  | S754_zero _ => True
  | S754_finite s _ _ => s = false
  | S754_infinity s => s = false
  | S754_nan => False
  end.

(** The token lines of the listing of [test_tokenizer]. *)
Definition listing (tk : Tokenizer) (ids : list Z) (tokens : list string) : list string :=
  map (token_line (unk_token tk))
      (enumerate 0 (combine (firstn 20 ids) (firstn 20 tokens))).

(** A payload printed by the handler of the loop in [main]. *)
Definition is_error_report (s : string) : bool := prefix (nl ++ "❌ ERROR: ") s.

Definition error_reports (log : list (action verifyE)) : list string :=
  filter is_error_report (printed log).

(** [subsequence l1 l2]: [l1] is [l2] with some elements left out. *)
Inductive subsequence {A : Type} : list A -> list A -> Prop :=
| subsequence_nil : subsequence [] []
| subsequence_skip (a : A) (l1 l2 : list A) :
    subsequence l1 l2 -> subsequence l1 (a :: l2)
| subsequence_take (a : A) (l1 l2 : list A) :
    subsequence l1 l2 -> subsequence (a :: l1) (a :: l2).

(** What an entry of [results], and a test case, say about the case. *)
Definition entry_key (e : result_entry) : string * string * bool :=
  (model (measured e), language (measured e), expect_unk e).

Definition case_key (tc : test_case) : string * string * bool :=
  (tc_model tc, tc_language tc, tc_expect_unk tc).

(** The test cases with the failed ones left out: each case is processed
    in the world the cases before it have left; a case whose call of
    [test_tokenizer] returns gives the entry with its dictionary and its
    expectation, a case whose call does not return gives nothing. *)
Fixpoint kept {World : Type}
         (respond : forall X : Type, verifyE X -> World -> result X * World)
         (cases : list test_case) (w : World) : list result_entry :=
  match cases with
  | [] => []
  | tc :: rest =>
      let x := run respond
                   (test_tokenizer (tc_model tc) (tc_text tc) (tc_language tc)) w in
      match outcome_of x with
      | Returned r =>
          {| measured := r; expect_unk := tc_expect_unk tc |}
            :: kept respond rest (world_of x)
      | _ => kept respond rest (world_of x)
      end
  end.

(** [always_fails respond]: the hub answers no request for a tokenizer. *)
Definition always_fails {World : Type}
           (respond : forall X : Type, verifyE X -> World -> result X * World) : Prop :=
  forall (name : string) (w : World),
  exists e, fst (respond _ (AutoTokenizer_from_pretrained name) w) = Raise e.

(** [never_fails respond]: the hub answers every request with a handle that
    encodes every text and converts the ids it produced. *)
Definition never_fails {World : Type}
           (respond : forall X : Type, verifyE X -> World -> result X * World) : Prop :=
  forall (name : string) (w : World),
  exists tk,
    fst (respond _ (AutoTokenizer_from_pretrained name) w) = Ok tk /\
    forall text, exists ids tokens,
        encode tk text false = Ok ids /\ convert_ids_to_tokens tk ids = Ok tokens.

(** A hub without network: every request fails. *)
Definition offline_hub (X : Type) (ev : verifyE X) (w : nat) : result X * nat :=
  match ev in verifyE T return result T * nat with
  | Import_AutoTokenizer => (Ok tt, w)
  | AutoTokenizer_from_pretrained _ =>
      (Raise (mk_exn OtherError "We couldn't connect to 'https://huggingface.co'"), S w)
  end.

(** A hub that hands out [ascii_tokenizer] for every name. *)
Definition steady_hub (X : Type) (ev : verifyE X) (w : nat) : result X * nat :=
  match ev in verifyE T return result T * nat with
  | Import_AutoTokenizer => (Ok tt, w)
  | AutoTokenizer_from_pretrained _ => (Ok ascii_tokenizer, S w)
  end.

(** An installation whose [transformers] package is broken: the import
    raises an exception that is not an [ImportError]. *)
Definition broken_install (X : Type) (ev : verifyE X) (w : nat) : result X * nat :=
  match ev in verifyE T return result T * nat with
  | Import_AutoTokenizer => (Raise (mk_exn OtherError "Failed to initialize torch"), w)
  | AutoTokenizer_from_pretrained _ => (Ok ascii_tokenizer, S w)
  end.

(** A case whose text has no ASCII byte, and a case with an empty text. *)
Definition devanagari_word : test_case :=
  {| tc_model := "bert-base-uncased";
     tc_text := "नमस्ते";
     tc_language := "Hindi (Devanagari)";
     tc_expect_unk := true |}.

Definition empty_text : test_case :=
  {| tc_model := "bert-base-uncased";
     tc_text := "";
     tc_language := "English";
     tc_expect_unk := false |}.

(* ================================================================== *)
(** ** Facts about binary64 rounding *)

Section Binary64Facts.

Local Open Scope Z_scope.

Lemma digits2_pos_bounds (p : positive) :
  2 ^ (Zpos (digits2_pos p) - 1) <= Zpos p < 2 ^ Zpos (digits2_pos p).
Proof.
  induction p as [p IH | p IH |]; cbn [digits2_pos].
  - rewrite Pos2Z.inj_succ, (Pos2Z.inj_xI p).
    replace (Z.succ (Zpos (digits2_pos p)) - 1) with (Z.succ (Zpos (digits2_pos p) - 1)) by lia.
    rewrite !Z.pow_succ_r by lia.
    set (a := 2 ^ (Zpos (digits2_pos p) - 1)) in *.
    set (b := 2 ^ Zpos (digits2_pos p)) in *. clearbody a b. lia.
  - rewrite Pos2Z.inj_succ, (Pos2Z.inj_xO p).
    replace (Z.succ (Zpos (digits2_pos p)) - 1) with (Z.succ (Zpos (digits2_pos p) - 1)) by lia.
    rewrite !Z.pow_succ_r by lia.
    set (a := 2 ^ (Zpos (digits2_pos p) - 1)) in *.
    set (b := 2 ^ Zpos (digits2_pos p)) in *. clearbody a b. lia.
  - cbn. lia.
Qed.

Lemma Zdigits2_bounds (m : Z) :
  0 < m -> 0 < Zdigits2 m /\ 2 ^ (Zdigits2 m - 1) <= m < 2 ^ Zdigits2 m.
Proof.
  destruct m as [| p | p]; try lia. intros _. cbn [Zdigits2].
  split; [lia | apply digits2_pos_bounds].
Qed.

Lemma shr_1_m (mrs : shr_record) :
  0 <= shr_m mrs -> shr_m (shr_1 mrs) = shr_m mrs / 2.
Proof.
  destruct mrs as [m r s]. cbn [shr_m]. intros Hm.
  rewrite <- Z.div2_div.
  destruct m as [| [p | p |] | p]; try lia; reflexivity.
Qed.

Lemma iter_shr_1_m (k : positive) :
  forall mrs : shr_record,
    0 <= shr_m mrs -> shr_m (iter_pos shr_1 k mrs) = shr_m mrs / 2 ^ Zpos k.
Proof.
  induction k as [k IH | k IH |]; intros mrs Hm; cbn [iter_pos].
  - assert (H1 : 0 <= shr_m (shr_1 mrs)) by (rewrite shr_1_m by lia; apply Z.div_pos; lia).
    assert (H2 : 0 <= shr_m (iter_pos shr_1 k (shr_1 mrs)))
      by (rewrite IH by lia; apply Z.div_pos; [lia | apply Z.pow_pos_nonneg; lia]).
    rewrite IH, IH, shr_1_m by lia.
    rewrite !Z.div_div by (try apply Z.pow_pos_nonneg; lia).
    f_equal. rewrite Pos2Z.inj_xI.
    rewrite <- Z.pow_add_r, <- (Z.pow_1_r 2) at 1 by lia.
    rewrite <- Z.pow_add_r by lia. f_equal. lia.
  - assert (H2 : 0 <= shr_m (iter_pos shr_1 k mrs))
      by (rewrite IH by lia; apply Z.div_pos; [lia | apply Z.pow_pos_nonneg; lia]).
    rewrite IH, IH by lia.
    rewrite !Z.div_div by (try apply Z.pow_pos_nonneg; lia).
    f_equal. rewrite Pos2Z.inj_xO, <- Z.pow_add_r by lia. f_equal. lia.
  - rewrite shr_1_m by lia. reflexivity.
Qed.


Lemma shr_record_of_loc_m (m : Z) (l : location) :
  shr_m (shr_record_of_loc m l) = m.
Proof. destruct l as [| []]; reflexivity. Qed.

(** Shifting to the target exponent keeps a positive mantissa positive,
    unless the number lies below the smallest subnormal. *)
Lemma shr_fexp_positive (m e : Z) (l : location) :
  0 < m -> -1073 <= Zdigits2 m + e ->
  0 < shr_m (fst (shr_fexp prec emax m e l)) /\ -1074 <= snd (shr_fexp prec emax m e l).
Proof.
  intros Hm Hd.
  destruct (Zdigits2_bounds m Hm) as [Hdpos [Hlo Hhi]].
  unfold shr_fexp, shr, fexp, emin, prec, emax.
  set (d := Zdigits2 m) in *.
  destruct (Z.max (d + e - 53) (3 - 1024 - 53) - e) as [| k | k] eqn:Hn;
    cbn [fst snd]; rewrite ?shr_record_of_loc_m; try lia.
  rewrite iter_shr_1_m by (rewrite shr_record_of_loc_m; lia).
  rewrite shr_record_of_loc_m. split; [| lia].
  apply Z.div_str_pos. split; [apply Z.pow_pos_nonneg; lia |].
  apply Z.le_trans with (2 ^ (d - 1)); [| exact Hlo].
  apply Z.pow_le_mono_r; lia.
Qed.

Lemma round_nearest_even_ge (m : Z) (l : location) :
  m <= round_nearest_even m l.
Proof.
  destruct l as [| []]; cbn [round_nearest_even]; try lia.
  destruct (Z.even m); lia.
Qed.

Lemma binary_round_aux_positive (m e : Z) (l : location) :
  0 < m -> -1073 <= Zdigits2 m + e ->
  positive_float (binary_round_aux prec emax false m e l).
Proof.
  intros Hm Hd. unfold binary_round_aux.
  pose proof (shr_fexp_positive m e l Hm Hd) as [H1 H2].
  destruct (shr_fexp prec emax m e l) as [mrs' e']. cbn [fst snd] in H1, H2.
  set (m2 := round_nearest_even (shr_m mrs') (loc_of_shr_record mrs')).
  assert (Hm2 : 0 < m2)
    by (pose proof (round_nearest_even_ge (shr_m mrs') (loc_of_shr_record mrs')); lia).
  assert (Hd2 : -1073 <= Zdigits2 m2 + e')
    by (destruct (Zdigits2_bounds m2 Hm2); lia).
  pose proof (shr_fexp_positive m2 e' loc_Exact Hm2 Hd2) as [H3 H4].
  destruct (shr_fexp prec emax m2 e' loc_Exact) as [mrs'' e'']. cbn [fst snd] in H3, H4.
  destruct (shr_m mrs'') as [| p | p]; try lia.
  destruct (e'' <=? emax - prec); cbn [positive_float]; [exact H4 | exact I].
Qed.

(** The quotient of two positive integers does not round to zero while
    the divisor stays below [2^1074]. *)
Lemma int_true_div_positive (c n : Z) :
  0 < c -> 0 < n < 2 ^ 1074 -> positive_float (int_true_div c n).
Proof.
  intros Hc [Hn Hbound].
  destruct c as [| pc | pc]; try lia. destruct n as [| pn | pn]; try lia.
  unfold int_true_div. cbn [exact_of_int SFdiv xorb].
  unfold SFdiv_core_binary. cbv zeta.
  destruct (Zdigits2_bounds (Zpos pc) Hc) as [Hd1 [Hlo1 Hhi1]].
  destruct (Zdigits2_bounds (Zpos pn) Hn) as [Hd2 [Hlo2 Hhi2]].
  set (d1 := Zdigits2 (Zpos pc)) in *. set (d2 := Zdigits2 (Zpos pn)) in *.
  set (e' := Z.min (fexp prec emax (d1 + 0 - (d2 + 0))) (0 - 0)).
  assert (He' : -1074 <= e' <= 0) by (unfold e', fexp, emin, prec, emax; lia).
  assert (Hcase : e' = -1074 \/ d2 <= d1 - 1 - e')
    by (unfold e', fexp, emin, prec, emax; lia).
  set (m' := match 0 - 0 - e' with
             | Z0 => Zpos pc
             | Zpos _ => Z.shiftl (Zpos pc) (0 - 0 - e')
             | Zneg _ => 0
             end).
  assert (Hm' : m' = Zpos pc * 2 ^ (- e')).
  { unfold m'. destruct (0 - 0 - e') as [| s | s] eqn:Hs; try lia.
    - replace (- e') with 0 by lia. rewrite Z.pow_0_r. lia.
    - rewrite Z.shiftl_mul_pow2 by lia. f_equal. f_equal. lia. }
  assert (Hge : Zpos pn <= m').
  { rewrite Hm'. destruct Hcase as [Hlow | Hwide].
    - rewrite Hlow. change (- -1074) with 1074.
      set (B := 2 ^ 1074) in *. clearbody B. nia.
    - apply Z.le_trans with (2 ^ d2); [lia |].
      apply Z.le_trans with (2 ^ (d1 - 1) * 2 ^ (- e')).
      + rewrite <- Z.pow_add_r by lia. apply Z.pow_le_mono_r; lia.
      + apply Z.mul_le_mono_nonneg_r; [apply Z.pow_nonneg; lia | exact Hlo1]. }
  clearbody m' e'.
  destruct (Z.div_eucl m' (Zpos pn)) as [q r] eqn:Hdiv.
  assert (Hq : q = m' / Zpos pn) by (unfold Z.div; rewrite Hdiv; reflexivity).
  assert (Hqpos : 0 < q) by (rewrite Hq; apply Z.div_str_pos; lia).
  apply binary_round_aux_positive; [exact Hqpos |].
  destruct (Zdigits2_bounds q Hqpos). lia.
Qed.

Lemma float_mul_int_100_positive (x : float) :
  positive_float x -> positive_float (float_mul_int x 100).
Proof.
  intros Hx. unfold float_mul_int.
  change (float_of_int 100) with (S754_finite false 7036874417766400 (-46)).
  destruct x as [s | [] | | [] m e]; cbn [positive_float] in Hx; try contradiction.
  - exact I.
  - cbn [SFmul xorb]. apply binary_round_aux_positive; [lia |].
    assert (Hp : 0 < Zpos (m * 7036874417766400)) by lia.
    destruct (Zdigits2_bounds _ Hp) as [Hd [Hlo Hhi]].
    set (d := Zdigits2 (Zpos (m * 7036874417766400))) in *.
    assert (53 <= d); [| lia].
    destruct (Z_lt_le_dec d 53) as [Hlt | Hok]; [| exact Hok]. exfalso.
    assert (2 ^ d <= 2 ^ 52) by (apply Z.pow_le_mono_r; lia).
    change (2 ^ 52) with 4503599627370496 in *.
    rewrite Pos2Z.inj_mul in Hhi. nia.
Qed.

Lemma positive_float_gt_zero (x : float) :
  positive_float x -> float_gt_zero x = true.
Proof.
  destruct x as [s | [] | | [] m e]; cbn [positive_float]; try contradiction;
    reflexivity.
Qed.

(** With at least one unknown token among at most [2^1074 - 1] tokens the
    percentage is a positive float. *)
Lemma percentage_gt_zero (c n : Z) :
  0 < c -> 0 < n < 2 ^ 1074 ->
  float_gt_zero (float_mul_int (int_true_div c n) 100) = true.
Proof.
  intros Hc Hn. apply positive_float_gt_zero, float_mul_int_100_positive,
    int_true_div_positive; assumption.
Qed.

Lemma percentage_zero (n : Z) :
  0 < n -> float_mul_int (int_true_div 0 n) 100 = float_zero.
Proof.
  intros Hn. destruct n as [| pn | pn]; try lia. reflexivity.
Qed.

End Binary64Facts.

(* ================================================================== *)
(** ** Facts about counting tokens *)

Section CountFacts.

Lemma fold_left_add_ones (A : Type) (l : list A) (a : Z) :
  fold_left Z.add (map (fun _ => 1%Z) l) a = (a + Z.of_nat (List.length l))%Z.
Proof.
  revert a. induction l as [| x l IH]; intro a; cbn [map fold_left List.length].
  - lia.
  - rewrite IH. lia.
Qed.

Lemma length_filter_eqb (tokens : list string) (unk : string) :
  List.length (filter (fun t => String.eqb t unk) tokens)
  = count_occ string_dec tokens unk.
Proof.
  induction tokens as [| t tokens IH]; [reflexivity |].
  cbn [filter count_occ].
  destruct (String.eqb_spec t unk) as [Heq | Hneq];
    destruct (string_dec t unk) as [Heq' | Hneq']; try contradiction;
    cbn [List.length]; rewrite IH; reflexivity.
Qed.

Lemma count_unk_count_occ (tokens : list string) (unk : string) :
  count_unk tokens unk = Z.of_nat (count_occ string_dec tokens unk).
Proof.
  unfold count_unk. rewrite fold_left_add_ones, length_filter_eqb. lia.
Qed.

Lemma length_unk_positions (tokens : list string) (unk : string) :
  List.length (unk_positions tokens unk) = count_occ string_dec tokens unk.
Proof.
  unfold unk_positions.
  induction tokens as [| t tokens IH]; [reflexivity |].
  cbn [List.length seq filter nth count_occ].
  rewrite <- seq_shift, filter_map_swap.
  destruct (String.eqb_spec t unk) as [Heq | Hneq];
    destruct (string_dec t unk) as [Heq' | Hneq']; try contradiction;
    cbn [List.length]; rewrite length_map; cbn [nth]; rewrite IH; reflexivity.
Qed.

Lemma count_unk_bounds (tokens : list string) (unk : string) :
  (0 <= count_unk tokens unk <= Z.of_nat (List.length tokens))%Z.
Proof.
  rewrite count_unk_count_occ.
  pose proof (count_occ_bound string_dec unk tokens). lia.
Qed.

(** The expression of the script is the percentage of the specification. *)
Lemma percentage_of_spec (tokens : list string) (unk : string) :
  percentage_of (count_unk tokens unk) tokens = spec_percentage tokens unk.
Proof.
  unfold percentage_of, spec_percentage. rewrite count_unk_count_occ.
  destruct tokens as [| t tokens]; [reflexivity |].
  destruct (Z.eqb_spec (Z.of_nat (List.length (t :: tokens))) 0) as [H0 | _];
    [cbn [List.length] in H0; lia | reflexivity].
Qed.

End CountFacts.

(* ================================================================== *)
(** ** Facts about running scripts *)

Section ProgramFacts.

Variable E : Type -> Type.
Variable World : Type.
Variable respond : forall X : Type, E X -> World -> result X * World.

Lemma run_bind (A B : Type) (p : prog E A) (f : A -> prog E B) (w : World) :
  run respond (bind p f) w = and_then (run respond p w) (fun a w' => run respond (f a) w').
Proof.
  revert w. induction p as [a | e | c | s k IH | X ev k IH]; intro w; simpl.
  - destruct (run respond (f a) w) as [[o w'] log]. reflexivity.
  - reflexivity.
  - reflexivity.
  - rewrite IH. destruct (run respond k w) as [[[a | e | c] w'] log]; simpl;
      try reflexivity.
    destruct (run respond (f a) w') as [[o w''] log']. reflexivity.
  - destruct (respond X ev w) as [r w1]. rewrite IH.
    destruct (run respond (k r) w1) as [[[a | e | c] w'] log]; simpl;
      try reflexivity.
    destruct (run respond (f a) w') as [[o w''] log']. reflexivity.
Qed.

Lemma run_try_except (A : Type) (p : prog E A) (matches : exn -> bool)
      (handler : exn -> prog E A) (w : World) :
  run respond (try_except p matches handler) w
  = or_else (run respond p w) matches (fun e w' => run respond (handler e) w').
Proof.
  revert w. induction p as [a | e | c | s k IH | X ev k IH]; intro w; simpl.
  - reflexivity.
  - destruct (matches e); [| reflexivity].
    destruct (run respond (handler e) w) as [[o w'] log]. reflexivity.
  - reflexivity.
  - rewrite IH. destruct (run respond k w) as [[[a | e | c] w'] log]; simpl;
      try reflexivity.
    destruct (matches e); [| reflexivity].
    destruct (run respond (handler e) w') as [[o w''] log']. reflexivity.
  - destruct (respond X ev w) as [r w1]. rewrite IH.
    destruct (run respond (k r) w1) as [[[a | e | c] w'] log]; simpl;
      try reflexivity.
    destruct (matches e); [| reflexivity].
    destruct (run respond (handler e) w') as [[o w''] log']. reflexivity.
Qed.

Lemma run_print_all (ls : list string) (w : World) :
  run respond (print_all ls) w = (Returned tt, w, map Printed ls).
Proof.
  induction ls as [| l rest IH]; simpl; [reflexivity |].
  rewrite IH. reflexivity.
Qed.

Lemma run_print (s : string) (w : World) :
  run respond (print s) w = (Returned tt, w, [Printed s]).
Proof. reflexivity. Qed.

Lemma run_lift (A : Type) (r : result A) (w : World) :
  run respond (lift r) w
  = (match r with Ok a => Returned a | Raise e => Raised e end, w, []).
Proof. destruct r; reflexivity. Qed.

Lemma run_call (X : Type) (ev : E X) (w : World) :
  run respond (call ev) w
  = (match fst (respond X ev w) with Ok a => Returned a | Raise e => Raised e end,
     snd (respond X ev w), [Called ev (fst (respond X ev w))]).
Proof.
  unfold call. simpl. destruct (respond X ev w) as [[a | e] w1]; reflexivity.
Qed.

Lemma printed_app (l1 l2 : list (action E)) :
  printed (l1 ++ l2) = printed l1 ++ printed l2.
Proof. unfold printed. apply flat_map_app. Qed.

Lemma printed_map_Printed (ls : list string) :
  printed (map (@Printed E) ls) = ls.
Proof.
  induction ls as [| l rest IH]; [reflexivity |].
  change (printed (map (@Printed E) (l :: rest)))
    with (l :: printed (map (@Printed E) rest)).
  rewrite IH. reflexivity.
Qed.

Lemma stdout_lines_app (l1 l2 : list (action E)) :
  stdout_lines (l1 ++ l2) = stdout_lines l1 ++ stdout_lines l2.
Proof. unfold stdout_lines. rewrite printed_app. apply flat_map_app. Qed.

End ProgramFacts.

(** One statement of a script: split the sequence, run its head. *)
Ltac run_step :=
  rewrite run_bind;
  rewrite ?run_print, ?run_print_all, ?run_lift, ?run_call;
  cbv beta iota delta [and_then].

(* ================================================================== *)
(** ** Facts about verify_unk_bert.py *)

Section VerifyFacts.

Variable World : Type.
Variable respond : forall X : Type, verifyE X -> World -> result X * World.

(** Every way a call of [test_tokenizer] can go. *)
Lemma run_test_tokenizer (model_name text language : string) (w : World) :
  run respond (test_tokenizer model_name text language) w =
  let ev := AutoTokenizer_from_pretrained model_name in
  let w1 := snd (respond _ ev w) in
  let asked := map Printed (banner model_name text language)
                 ++ [Called ev (fst (respond _ ev w))] in
  match fst (respond _ ev w) with
  | Raise e => (Raised e, w1, asked)
  | Ok tk =>
      match encode tk text false with
      | Raise e => (Raised e, w1, asked ++ [Printed (unk_info tk)])
      | Ok ids =>
          match convert_ids_to_tokens tk ids with
          | Raise e => (Raised e, w1, asked ++ [Printed (unk_info tk)])
          | Ok tokens =>
              (Returned (stats_of model_name language tk tokens), w1,
               asked ++ [Printed (unk_info tk)] ++ map Printed (report tk ids tokens))
          end
      end
  end.
Proof.
  unfold test_tokenizer.
  do 6 run_step.
  destruct (respond Tokenizer (AutoTokenizer_from_pretrained model_name) w)
    as [[tk | e] w1]; cbn [fst snd]; [| reflexivity].
  do 2 run_step.
  destruct (encode tk text false) as [ids | e]; [| reflexivity].
  run_step.
  destruct (convert_ids_to_tokens tk ids) as [tokens | e]; [| reflexivity].
  do 7 run_step.
  unfold report, banner, unk_info, stats_of.
  destruct (20 <? List.length tokens)%nat;
    rewrite ?run_print; cbn [run]; cbv beta iota;
    rewrite !map_app; cbn [map app]; rewrite <- ?app_assoc; cbn [map app];
    rewrite ?app_nil_r; reflexivity.
Qed.

Lemma processed_stats_of (tc : test_case) (tk : Tokenizer) (ids : list Z)
      (tokens : list string) (r : stats) :
  processed respond tc tk ids tokens r ->
  r = stats_of (tc_model tc) (tc_language tc) tk tokens.
Proof.
  intros (w & w' & log & Hload & Henc & Hconv & Hrun).
  rewrite run_test_tokenizer in Hrun. cbv zeta in Hrun.
  rewrite Hload in Hrun. cbn [fst snd] in Hrun.
  rewrite Henc, Hconv in Hrun. congruence.
Qed.

(** One iteration of the loop of [main]. *)
Lemma run_loop_body (results : list result_entry) (tc : test_case) (w : World) :
  run respond (loop_body results tc) w =
  match run respond (test_tokenizer (tc_model tc) (tc_text tc) (tc_language tc)) w with
  | (Returned r, w', log) =>
      (Returned (results ++ [ {| measured := r; expect_unk := tc_expect_unk tc |} ]),
       w', log)
  | (Raised e, w', log) => (Returned results, w', log ++ [Printed (error_report e)])
  | (Exited c, w', log) => (Exited c, w', log)
  end.
Proof.
  unfold loop_body. rewrite run_try_except, run_bind.
  destruct (run respond (test_tokenizer (tc_model tc) (tc_text tc) (tc_language tc)) w)
    as [[[r | e | c] w'] log]; cbn; rewrite ?app_nil_r; reflexivity.
Qed.

Lemma run_for_test_cases_cons (tc : test_case) (rest : list test_case)
      (results : list result_entry) (w : World) :
  run respond (for_test_cases (tc :: rest) results) w =
  and_then (run respond (loop_body results tc) w)
           (fun results' w' => run respond (for_test_cases rest results') w').
Proof. cbn [for_test_cases]. apply run_bind. Qed.

Lemma recorded_weaken (tc : test_case) (cases : list test_case) (e : result_entry) :
  recorded respond cases e -> recorded respond (tc :: cases) e.
Proof.
  intros (tc' & tk & ids & tokens & Hin & Hp & Hx).
  exists tc', tk, ids, tokens. split; [right; exact Hin | split; assumption].
Qed.

(** The loop never fails, keeps what was accumulated, and appends only
    entries that come from processing a case. *)
Lemma run_for_test_cases (cases : list test_case) :
  forall (results : list result_entry) (w : World),
  exists (added : list result_entry) (w' : World) (log : list (action verifyE)),
    run respond (for_test_cases cases results) w = (Returned (results ++ added), w', log) /\
    Forall (recorded respond cases) added.
Proof.
  induction cases as [| tc rest IH]; intros results w.
  - exists [], w, []. cbn. rewrite app_nil_r. split; [reflexivity | constructor].
  - rewrite run_for_test_cases_cons, run_loop_body.
    pose proof (run_test_tokenizer (tc_model tc) (tc_text tc) (tc_language tc) w) as Hrun.
    cbv zeta in Hrun.
    destruct (respond Tokenizer (AutoTokenizer_from_pretrained (tc_model tc)) w)
      as [[tk | e] w1] eqn:Hload; cbn [fst snd] in Hrun.
    2:{ rewrite Hrun. cbn [and_then].
        destruct (IH results w1) as (added & w' & log & Hrest & Hall).
        rewrite Hrest. exists added, w'. eexists. split; [reflexivity |].
        eapply Forall_impl; [| exact Hall]. intros e'. apply recorded_weaken. }
    destruct (encode tk (tc_text tc) false) as [ids | e] eqn:Henc.
    2:{ rewrite Hrun. cbn [and_then].
        destruct (IH results w1) as (added & w' & log & Hrest & Hall).
        rewrite Hrest. exists added, w'. eexists. split; [reflexivity |].
        eapply Forall_impl; [| exact Hall]. intros e'. apply recorded_weaken. }
    destruct (convert_ids_to_tokens tk ids) as [tokens | e] eqn:Hconv.
    2:{ rewrite Hrun. cbn [and_then].
        destruct (IH results w1) as (added & w' & log & Hrest & Hall).
        rewrite Hrest. exists added, w'. eexists. split; [reflexivity |].
        eapply Forall_impl; [| exact Hall]. intros e'. apply recorded_weaken. }
    rewrite Hrun. cbn [and_then].
    set (entry := {| measured := stats_of (tc_model tc) (tc_language tc) tk tokens;
                     expect_unk := tc_expect_unk tc |}).
    destruct (IH (results ++ [entry]) w1) as (added & w' & log & Hrest & Hall).
    rewrite Hrest. exists (entry :: added), w'. eexists.
    split; [rewrite <- app_assoc; reflexivity |].
    constructor.
    + exists tc, tk, ids, tokens. split; [left; reflexivity |].
      split; [| reflexivity].
      exists w, w1. eexists. repeat split; eassumption.
    + eapply Forall_impl; [| exact Hall]. intros e'. apply recorded_weaken.
Qed.

Lemma run_for_results (results : list result_entry) (w : World) :
  run respond (for_results results) w
  = (Returned tt, w, map Printed (flat_map summary_entry results)).
Proof.
  induction results as [| r rest IH]; [reflexivity |].
  cbn [for_results flat_map]. rewrite run_bind, run_print_all. cbn [and_then].
  rewrite IH, map_app. reflexivity.
Qed.

Lemma run_summary (results : list result_entry) (w : World) :
  run respond (summary results) w
  = (Returned tt, w,
     map Printed (summary_header ++ flat_map summary_entry results ++ summary_footer)).
Proof.
  unfold summary. rewrite run_bind, run_print_all. cbn [and_then].
  rewrite run_bind, run_for_results. cbn [and_then].
  rewrite run_print_all, !map_app. reflexivity.
Qed.

(** [main] always returns; what it recorded comes from the five cases, and
    its output ends with the summary of what it recorded. *)
Lemma run_main (w : World) :
  exists (results : list result_entry) (w' : World) (before : list (action verifyE)),
    run respond main w
    = (Returned results, w',
       before ++ map Printed (summary_header ++ flat_map summary_entry results
                                ++ summary_footer)) /\
    Forall (recorded respond test_cases) results.
Proof.
  unfold main. do 3 run_step.
  destruct (run_for_test_cases test_cases [] w) as (results & w' & log & Hloop & Hall).
  rewrite Hloop. cbn [app]. run_step. rewrite run_summary. cbn [run].
  exists results, w'.
  exists ([Printed "🔍 UNK Token Detection Verification Script"; Printed rule60] ++ log).
  split; [| exact Hall].
  rewrite app_nil_r, <- !app_assoc. reflexivity.
Qed.

End VerifyFacts.

(* ================================================================== *)
(** ** The unknown-token statistics *)

Section Statistics.

Variable World : Type.
Variable respond : forall X : Type, verifyE X -> World -> result X * World.

(** When the hub hands out a handle and the handle encodes and converts,
    [test_tokenizer] returns the dictionary built from the tokens. *)
Lemma test_tokenizer_returns (tc : test_case) (w w' : World) (tk : Tokenizer)
      (ids : list Z) (tokens : list string) :
  respond _ (AutoTokenizer_from_pretrained (tc_model tc)) w = (Ok tk, w') ->
  encode tk (tc_text tc) false = Ok ids ->
  convert_ids_to_tokens tk ids = Ok tokens ->
  processed respond tc tk ids tokens (stats_of (tc_model tc) (tc_language tc) tk tokens).
Proof.
  intros Hload Henc Hconv. exists w, w'.
  pose proof (run_test_tokenizer _ respond (tc_model tc) (tc_text tc) (tc_language tc) w)
    as Hrun.
  cbv zeta in Hrun. rewrite Hload in Hrun. cbn [fst snd] in Hrun.
  rewrite Henc, Hconv in Hrun. eexists. repeat split; eassumption.
Qed.

(** A property of every processed case holds of every entry [main] records. *)
Lemma main_records (P : Tokenizer -> list string -> stats -> Prop) :
  (forall tc tk ids tokens r, processed respond tc tk ids tokens r -> P tk tokens r) ->
  forall w : World,
  exists results : list result_entry,
    outcome_of (run respond main w) = Returned results /\
    Forall (fun e => exists tc tk ids tokens,
                In tc test_cases /\
                processed respond tc tk ids tokens (measured e) /\
                P tk tokens (measured e)) results.
Proof.
  intros HP w.
  destruct (run_main _ respond w) as (results & w' & before & Hrun & Hall).
  exists results. rewrite Hrun. split; [reflexivity |].
  eapply Forall_impl; [| exact Hall].
  intros e (tc & tk & ids & tokens & Hin & Hproc & _).
  exists tc, tk, ids, tokens. repeat split; try assumption.
  eapply HP; eassumption.
Qed.

(** C1. For every test case the diagnostic procedure processes, the
    unknown-token percentage it computes is the number of produced tokens
    equal to the tokenizer's unknown-token string, divided by the total
    number of tokens, times 100, and it is 0 when there is no token.
    First for one call of [test_tokenizer] on any case, which returns a
    dictionary as soon as the tokenizer is obtained and encodes and
    converts; then for every entry that [main] records. *)
Theorem unk_percentage_formula :
  (forall tc w w' tk ids tokens,
      respond _ (AutoTokenizer_from_pretrained (tc_model tc)) w = (Ok tk, w') ->
      encode tk (tc_text tc) false = Ok ids ->
      convert_ids_to_tokens tk ids = Ok tokens ->
      exists r log,
        run respond (test_tokenizer (tc_model tc) (tc_text tc) (tc_language tc)) w
        = (Returned r, w', log) /\
        unk_percentage r = spec_percentage tokens (unk_token tk) /\
        (List.length tokens = 0%nat -> unk_percentage r = float_zero)) /\
  (forall w, exists results,
      outcome_of (run respond main w) = Returned results /\
      Forall (fun e => exists tc tk ids tokens,
                  In tc test_cases /\
                  processed respond tc tk ids tokens (measured e) /\
                  unk_percentage (measured e) = spec_percentage tokens (unk_token tk))
             results).
Proof.
  split.
  - intros tc w w' tk ids tokens Hload Henc Hconv.
    pose proof (run_test_tokenizer _ respond (tc_model tc) (tc_text tc) (tc_language tc) w)
      as Hw.
    cbv zeta in Hw. rewrite Hload in Hw. cbn [fst snd] in Hw.
    rewrite Henc, Hconv in Hw.
    eexists. eexists. split; [exact Hw |]. cbn [unk_percentage stats_of].
    split; [apply percentage_of_spec |].
    intros Hlen. destruct tokens; [reflexivity | discriminate Hlen].
  - apply (main_records (fun tk tokens r =>
             unk_percentage r = spec_percentage tokens (unk_token tk))).
    intros tc tk ids tokens r Hproc.
    rewrite (processed_stats_of _ respond tc tk ids tokens r Hproc).
    cbn [unk_percentage stats_of]. apply percentage_of_spec.
Qed.

(** C4. For every test case, the unknown-token count the diagnostic
    procedure computes is the number of positions of the converted token
    sequence that hold the tokenizer's unknown-token string; the count is
    one pass over the sequence, adding one at each such position. *)
Theorem unk_count_counts_positions :
  (forall tc w w' tk ids tokens,
      respond _ (AutoTokenizer_from_pretrained (tc_model tc)) w = (Ok tk, w') ->
      encode tk (tc_text tc) false = Ok ids ->
      convert_ids_to_tokens tk ids = Ok tokens ->
      exists r log,
        run respond (test_tokenizer (tc_model tc) (tc_text tc) (tc_language tc)) w
        = (Returned r, w', log) /\
        unk_count r = Z.of_nat (List.length (unk_positions tokens (unk_token tk)))) /\
  (forall w, exists results,
      outcome_of (run respond main w) = Returned results /\
      Forall (fun e => exists tc tk ids tokens,
                  In tc test_cases /\
                  processed respond tc tk ids tokens (measured e) /\
                  unk_count (measured e)
                  = Z.of_nat (List.length (unk_positions tokens (unk_token tk))))
             results) /\
  (forall unk, count_unk [] unk = 0%Z) /\
  (forall unk t tokens,
      count_unk (t :: tokens) unk
      = ((if String.eqb t unk then 1 else 0) + count_unk tokens unk)%Z).
Proof.
  split; [| split; [| split]].
  - intros tc w w' tk ids tokens Hload Henc Hconv.
    pose proof (run_test_tokenizer _ respond (tc_model tc) (tc_text tc) (tc_language tc) w)
      as Hw.
    cbv zeta in Hw. rewrite Hload in Hw. cbn [fst snd] in Hw.
    rewrite Henc, Hconv in Hw.
    eexists. eexists. split; [exact Hw |]. cbn [unk_count stats_of].
    rewrite count_unk_count_occ, length_unk_positions. reflexivity.
  - apply (main_records (fun tk tokens r =>
             unk_count r = Z.of_nat (List.length (unk_positions tokens (unk_token tk))))).
    intros tc tk ids tokens r Hproc.
    rewrite (processed_stats_of _ respond tc tk ids tokens r Hproc).
    cbn [unk_count stats_of].
    rewrite count_unk_count_occ, length_unk_positions. reflexivity.
  - reflexivity.
  - intros unk t tokens. rewrite !count_unk_count_occ. cbn [count_occ].
    destruct (String.eqb_spec t unk) as [Heq | Hneq];
      destruct (string_dec t unk) as [Heq' | Hneq']; try contradiction; lia.
Qed.

(** C10. For every result record the diagnostic procedure produces (from
    at most [sys.maxsize] tokens, the longest list CPython can hold), the
    percentage is above zero exactly when the unknown-token count is; so
    the presence flag of the summary, [unk_count > 0], can be read off the
    percentage, and with no token at all both are 0. *)
Theorem percentage_positive_iff_count_positive
        (tc : test_case) (tk : Tokenizer) (ids : list Z) (tokens : list string)
        (r : stats) :
  processed respond tc tk ids tokens r ->
  (token_count r <= sys_maxsize)%Z ->
  (float_gt_zero (unk_percentage r) = true <-> (0 < unk_count r)%Z) /\
  (forall x : bool,
      has_unk {| measured := r; expect_unk := x |} = float_gt_zero (unk_percentage r)) /\
  (token_count r = 0%Z -> unk_count r = 0%Z /\ unk_percentage r = float_zero).
Proof.
  intros Hproc Hmax.
  rewrite (processed_stats_of _ respond tc tk ids tokens r Hproc) in *.
  cbn [unk_percentage unk_count token_count stats_of] in *.
  pose proof (count_unk_bounds tokens (unk_token tk)) as [Hlo Hhi].
  set (c := count_unk tokens (unk_token tk)) in *.
  assert (Hgt : float_gt_zero (percentage_of c tokens) = (0 <? c)%Z).
  { destruct tokens as [| t tokens].
    - cbn [List.length] in Hhi. replace c with 0%Z by lia. reflexivity.
    - cbn [percentage_of]. set (n := Z.of_nat (List.length (t :: tokens))) in *.
      assert (Hn : (0 < n)%Z) by (unfold n; cbn [List.length]; lia).
      destruct (Z.ltb_spec 0 c) as [Hpos | Hzero].
      + apply percentage_gt_zero; [exact Hpos |]. split; [exact Hn |].
        apply Z.le_lt_trans with sys_maxsize; [exact Hmax | reflexivity].
      + replace c with 0%Z by lia. rewrite percentage_zero by exact Hn. reflexivity. }
  split; [| split].
  - rewrite Hgt. apply Z.ltb_lt.
  - intros x. unfold has_unk. cbn [measured unk_count]. symmetry. exact Hgt.
  - intros Hzero. split; [lia |].
    destruct tokens; [reflexivity | cbn [List.length] in Hzero; lia].
Qed.

End Statistics.

(* ================================================================== *)
(** ** The loop over the test cases *)

Section Loop.

Variable World : Type.
Variable respond : forall X : Type, verifyE X -> World -> result X * World.

Lemma requested_app (l1 l2 : list (action verifyE)) :
  requested (l1 ++ l2) = requested l1 ++ requested l2.
Proof. unfold requested. apply flat_map_app. Qed.

Lemma requested_Printed (ls : list string) :
  requested (map Printed ls) = [].
Proof. induction ls as [| l rest IH]; [reflexivity | exact IH]. Qed.

(** Each iteration asks the hub once, for the model of its case, and
    hands a list of results to the next one. *)
Lemma loop_body_requests (results : list result_entry) (tc : test_case) (w : World) :
  exists results' w' log,
    run respond (loop_body results tc) w = (Returned results', w', log) /\
    requested log = [tc_model tc].
Proof.
  rewrite run_loop_body, run_test_tokenizer. cbv zeta.
  destruct (respond Tokenizer (AutoTokenizer_from_pretrained (tc_model tc)) w)
    as [[tk | e] w1]; cbn [fst snd].
  2:{ do 3 eexists. split; [reflexivity |].
      rewrite !requested_app, requested_Printed. reflexivity. }
  destruct (encode tk (tc_text tc) false) as [ids | e].
  2:{ do 3 eexists. split; [reflexivity |].
      rewrite !requested_app, requested_Printed. reflexivity. }
  destruct (convert_ids_to_tokens tk ids) as [tokens | e].
  2:{ do 3 eexists. split; [reflexivity |].
      rewrite !requested_app, requested_Printed. reflexivity. }
  do 3 eexists. split; [reflexivity |].
  rewrite !requested_app, !requested_Printed. reflexivity.
Qed.

Lemma for_test_cases_requests (cases : list test_case) :
  forall (results : list result_entry) (w : World),
    requested (log_of (run respond (for_test_cases cases results) w))
    = map tc_model cases.
Proof.
  induction cases as [| tc rest IH]; intros results w; [reflexivity |].
  rewrite run_for_test_cases_cons.
  destruct (loop_body_requests results tc w) as (results' & w' & log & Hrun & Hreq).
  rewrite Hrun. cbn [and_then]. specialize (IH results' w').
  destruct (run respond (for_test_cases rest results') w') as [[o w''] log'].
  unfold log_of in *. cbn [snd] in *.
  rewrite requested_app, Hreq, IH. reflexivity.
Qed.

(** C9. The test set of the diagnostic procedure is a fixed sequence of
    exactly five records: the Hindi, Kannada and Tamil texts on
    bert-base-uncased expect unknown tokens, the English text on
    bert-base-uncased and the Hindi text on bert-base-multilingual-uncased
    expect none.  The procedure does not change it: whatever happens, it
    asks for the models of these five records, in this order. *)
Theorem test_cases_fixed :
  List.length test_cases = 5%nat /\
  map (fun tc => (tc_model tc, tc_language tc, tc_expect_unk tc)) test_cases
  = [ ("bert-base-uncased", "Hindi (Devanagari)", true);
      ("bert-base-uncased", "Kannada", true);
      ("bert-base-uncased", "Tamil", true);
      ("bert-base-uncased", "English", false);
      ("bert-base-multilingual-uncased", "Hindi (Devanagari)", false) ] /\
  map tc_text test_cases
  = [ "नमस्ते दुनिया। यह एक परीक्षण है।";
      "ಹಲೋ ಜಗತ್ತು। ಇದು ಒಂದು ಪರೀಕ್ಷೆ.";
      "வணக்கம் உலகம். இது ஒரு சோதனை.";
      "Hello world. This is a test.";
      "नमस्ते दुनिया। यह एक परीक्षण है।" ] /\
  (forall w : World,
      requested (log_of (run respond main w)) = map tc_model test_cases).
Proof.
  split; [reflexivity | split; [reflexivity | split; [reflexivity |]]].
  intros w. unfold main. do 3 run_step.
  pose proof (for_test_cases_requests test_cases [] w) as Hreq.
  destruct (run_for_test_cases _ respond test_cases [] w)
    as (results & w' & log & Hloop & _).
  rewrite Hloop in *. unfold log_of in *. cbn [snd app] in *.
  run_step. rewrite run_summary. cbn [run].
  change (Printed "🔍 UNK Token Detection Verification Script" :: Printed rule60
            :: log ++ map Printed (summary_header ++ flat_map summary_entry results
                                     ++ summary_footer) ++ [])
    with (map (@Printed verifyE) ["🔍 UNK Token Detection Verification Script"; rule60]
            ++ log ++ map Printed (summary_header ++ flat_map summary_entry results
                                     ++ summary_footer) ++ []).
  cbn [snd]. rewrite !requested_app, !requested_Printed, Hreq, app_nil_r. reflexivity.
Qed.

(** C3. When processing a test case raises an error, the error is caught
    and reported, the loop goes on with the remaining cases, and the list
    of results is the one accumulated before the failed case: the run of
    the loop from that case is what the case printed, the error report,
    and the run of the loop on the remaining cases with the same list. *)
Theorem failed_case_is_skipped
        (tc : test_case) (rest : list test_case) (results : list result_entry)
        (w w1 : World) (e : exn) (log1 : list (action verifyE)) :
  run respond (test_tokenizer (tc_model tc) (tc_text tc) (tc_language tc)) w
  = (Raised e, w1, log1) ->
  run respond (loop_body results tc) w
  = (Returned results, w1, log1 ++ [Printed (error_report e)]) /\
  run respond (for_test_cases (tc :: rest) results) w
  = (let '(o, w', log') := run respond (for_test_cases rest results) w1 in
     (o, w', (log1 ++ [Printed (error_report e)]) ++ log')).
Proof.
  intros Hfail.
  assert (Hbody : run respond (loop_body results tc) w
                  = (Returned results, w1, log1 ++ [Printed (error_report e)]))
    by (rewrite run_loop_body, Hfail; reflexivity).
  split; [exact Hbody |].
  rewrite run_for_test_cases_cons, Hbody. reflexivity.
Qed.

(** C7. The diagnostic script exits with status 0 whenever the import of
    the transformers library succeeds, whatever the summary says; when the
    import fails it exits with status 1, and for an [ImportError] it does
    so through [exit(1)] after its two lines of advice. *)
Theorem exit_codes (w : World) :
  let x := run respond verify_unk_bert w in
  match fst (respond _ Import_AutoTokenizer w) with
  | Ok _ => outcome_of x = Returned tt /\ exit_status (outcome_of x) = 0%Z
  | Raise e =>
      exit_status (outcome_of x) = 1%Z /\
      (isinstance_ImportError e = true ->
       outcome_of x = Exited 1%Z /\
       log_of x = [ Called Import_AutoTokenizer (Raise e);
                    Printed "ERROR: transformers not installed";
                    Printed "Install with: pip install transformers" ])
  end.
Proof.
  cbv zeta. unfold verify_unk_bert.
  rewrite run_bind, run_try_except, run_call.
  destruct (respond unit Import_AutoTokenizer w) as [[[] | e] w1]; cbn [fst snd].
  - cbn [or_else and_then]. rewrite run_bind.
    destruct (run_main _ respond w1) as (results & w' & before & Hmain & _).
    rewrite Hmain. cbn. split; reflexivity.
  - cbn [or_else]. destruct (isinstance_ImportError e); cbn.
    + split; [reflexivity |]. intros _. split; reflexivity.
    + split; [reflexivity |]. intros H. discriminate H.
Qed.

End Loop.

(* ================================================================== *)
(** ** The summary *)

Section OneLine.

Lemma split_lines_no_newline (s : string) :
  no_newline s = true -> split_lines s = [s].
Proof.
  induction s as [| c s IH]; [reflexivity |].
  cbn [no_newline split_lines]. intros H.
  apply andb_true_iff in H. destruct H as [Hc Hs].
  apply negb_true_iff in Hc. rewrite Hc, (IH Hs). reflexivity.
Qed.

Lemma no_newline_app (a b : string) :
  no_newline (a ++ b) = no_newline a && no_newline b.
Proof.
  induction a as [| c a IH]; [reflexivity |].
  cbn [append no_newline]. rewrite IH, andb_assoc. reflexivity.
Qed.

Lemma no_newline_str_mul (c : string) (n : nat) :
  no_newline c = true -> no_newline (str_mul c n) = true.
Proof.
  intros Hc. induction n as [| n IH]; [reflexivity |].
  cbn [str_mul]. rewrite no_newline_app, Hc, IH. reflexivity.
Qed.

Lemma no_newline_string_of_uint (d : Decimal.uint) :
  no_newline (DecimalString.NilEmpty.string_of_uint d) = true.
Proof. induction d; cbn; assumption || reflexivity. Qed.

Lemma no_newline_nilzero (d : Decimal.uint) :
  no_newline (DecimalString.NilZero.string_of_uint d) = true.
Proof.
  destruct d; [reflexivity | ..];
    apply (no_newline_string_of_uint (_ d)).
Qed.

Lemma no_newline_str_of_int (z : Z) : no_newline (str_of_int z) = true.
Proof.
  unfold str_of_int, DecimalString.NilZero.string_of_int.
  destruct (Z.to_int z) as [d | d]; [apply no_newline_nilzero |].
  change (negb (Ascii.eqb "-" (ascii_of_nat 10))
          && no_newline (DecimalString.NilZero.string_of_uint d) = true).
  rewrite no_newline_nilzero. reflexivity.
Qed.

Lemma no_newline_fixed_digits (d : nat) (n : Z) :
  no_newline (fixed_digits d n) = true.
Proof.
  unfold fixed_digits, zfill. destruct d as [| d];
    rewrite ?no_newline_app, ?no_newline_str_of_int,
      ?no_newline_str_mul by reflexivity; reflexivity.
Qed.

Lemma no_newline_format_f (d : nat) (x : float) : no_newline (format_f d x) = true.
Proof.
  destruct x as [[] | [] | | [] m e]; cbn [format_f];
    rewrite ?no_newline_app, ?no_newline_fixed_digits; reflexivity.
Qed.

(** The four payloads of an entry are four lines when the model name and
    the language label are. *)
Lemma summary_entry_lines (r : result_entry) :
  no_newline (model (measured r)) = true ->
  no_newline (language (measured r)) = true ->
  flat_map split_lines (summary_entry r) = summary_entry r.
Proof.
  intros Hm Hl. unfold summary_entry. cbn [flat_map app].
  rewrite !split_lines_no_newline; [reflexivity | ..];
    rewrite ?no_newline_app, ?no_newline_str_of_int, ?no_newline_format_f, ?Hm, ?Hl;
    unfold status;
    repeat match goal with |- context [if ?b then _ else _] => destruct b end;
    reflexivity.
Qed.

End OneLine.

Section Summary.

Variable World : Type.
Variable respond : forall X : Type, verifyE X -> World -> result X * World.

Lemma recorded_one_line (e : result_entry) :
  recorded respond test_cases e ->
  no_newline (model (measured e)) = true /\ no_newline (language (measured e)) = true.
Proof.
  intros (tc & tk & ids & tokens & Hin & Hproc & _).
  rewrite (processed_stats_of _ respond tc tk ids tokens _ Hproc).
  cbn [model language stats_of].
  cbn [In test_cases] in Hin.
  repeat (destruct Hin as [<- | Hin]; [split; reflexivity |]).
  contradiction.
Qed.

Lemma summary_lines (results : list result_entry) :
  Forall (recorded respond test_cases) results ->
  stdout_lines (map (@Printed verifyE) (flat_map summary_entry results))
  = flat_map summary_entry results.
Proof.
  intros Hall. unfold stdout_lines. rewrite printed_map_Printed.
  induction Hall as [| e results He _ IH]; [reflexivity |].
  cbn [flat_map]. rewrite flat_map_app, IH.
  destruct (recorded_one_line e He) as [Hm Hl].
  rewrite (summary_entry_lines e Hm Hl). reflexivity.
Qed.

Lemma status_marks (r : result_entry) (rest : string) :
  (prefix pass_mark (status r ++ rest) = true <-> has_unk r = expect_unk r) /\
  (prefix fail_mark (status r ++ rest) = true <-> has_unk r <> expect_unk r).
Proof.
  unfold status.
  destruct (has_unk r), (expect_unk r); cbn [Bool.eqb];
    (split; split; intro H; try reflexivity; try congruence;
     try (exfalso; apply H; reflexivity));
    try discriminate H; try (cbn; destruct rest; reflexivity).
Qed.

(** C2, as the script has it.  In the final summary the diagnostic
    procedure emits, for each recorded result and in recording order, a
    block of four lines:
    - the status line: the mark, the model and the language;
    - the line of counts: the token count, the unknown-token count and the
      percentage with one decimal;
    - the line of expectations: what the case expects and whether unknown
      tokens were found;
    - an empty line.
    The status line, and no other line of the block, starts with a mark:
    PASS if and only if the observed presence of unknown tokens
    ([unk_count > 0]) equals the expected flag of the case, and FAIL
    otherwise. *)
Theorem summary_blocks (w : World) :
  exists results w' before,
    run respond main w
    = (Returned results, w',
       before ++ map Printed (summary_header ++ flat_map summary_entry results
                                ++ summary_footer)) /\
    stdout_lines (map (@Printed verifyE) (flat_map summary_entry results))
    = flat_map summary_entry results /\
    List.length (flat_map summary_entry results) = (4 * List.length results)%nat /\
    forall r : result_entry,
      let found := (0 <? unk_count (measured r))%Z in
      summary_entry r
      = [ ((if Bool.eqb found (expect_unk r) then pass_mark else fail_mark)
             ++ " " ++ model (measured r) ++ " on " ++ language (measured r))%string;
          ("     Tokens: " ++ str_of_int (token_count (measured r))
             ++ ", UNK: " ++ str_of_int (unk_count (measured r))
             ++ " (" ++ format_f 1 (unk_percentage (measured r)) ++ "%)")%string;
          ("     Expected: "
             ++ (if expect_unk r then "Should have UNK" else "Should NOT have UNK")
             ++ ", Got: " ++ (if found then "UNK found" else "No UNK"))%string;
          "" ] /\
      (prefix pass_mark (hd "" (summary_entry r)) = true <-> found = expect_unk r) /\
      (prefix fail_mark (hd "" (summary_entry r)) = true <-> found <> expect_unk r) /\
      Forall (fun l => prefix pass_mark l = false /\ prefix fail_mark l = false)
             (tl (summary_entry r)).
Proof.
  destruct (run_main _ respond w) as (results & w' & before & Hrun & Hall).
  exists results, w', before. split; [exact Hrun |].
  split; [apply summary_lines; exact Hall |].
  split.
  { clear. induction results as [| r results IH]; [reflexivity |].
    cbn [flat_map]. rewrite length_app, IH. cbn [summary_entry List.length]. lia. }
  intros r. cbv zeta. split; [reflexivity |].
  unfold summary_entry. cbn [hd tl].
  split; [apply status_marks | split; [apply status_marks |]].
  repeat constructor.
Qed.

End Summary.

(** C2 as stated fails: the summary does not have exactly one line per
    recorded result.  The English case, answered by [ascii_tokenizer],
    records one entry, and the summary of that entry has four lines. *)
Lemma one_line_per_result_fails :
  outcome_of (run flaky_hub (loop_body [] (case 3)) 0%nat) = Returned [english_entry] /\
  stdout_lines (log_of (run flaky_hub (for_results [english_entry]) 0%nat))
  = [ "✅ PASS bert-base-uncased on English";
      "     Tokens: 28, UNK: 0 (0.0%)";
      "     Expected: Should NOT have UNK, Got: No UNK";
      "" ] /\
  List.length (stdout_lines (log_of (run flaky_hub (for_results [english_entry]) 0%nat)))
  <> List.length [english_entry].
Proof.
  split; [vm_compute; reflexivity |].
  split; [vm_compute; reflexivity | vm_compute; discriminate].
Qed.

(* ================================================================== *)
(** ** Facts about create_token.py *)

(** A run that stops at the call the environment answered with [e]. *)
Ltac raised_case :=
  cbn [log_of outcome_of exit_status fst snd app flat_map map];
  split;
  [ eexists; reflexivity
  | split; [reflexivity |];
    split; [reflexivity | split; [reflexivity | split; [reflexivity |]]];
    match goal with
    | |- exists pre X ev, ?l = _ => exists (removelast l); cbn [removelast]
    end;
    eexists; eexists; reflexivity ].

Section CreateTokenFacts.

Variables BertTokenizer BertTokenizerFast BertModel : Type.
Variables BatchEncoding ModelOutput Tensor : Type.
Variable str_BatchEncoding : BatchEncoding -> string.
Variable last_hidden_state : ModelOutput -> Tensor.
Variable str_Tensor : Tensor -> string.

Variable World : Type.
Variable respond :
  forall X : Type,
    createE BertTokenizer BertTokenizerFast BertModel BatchEncoding ModelOutput X ->
    World -> result X * World.

(** C8. The conversion procedure performs, in this order: the import of
    the library, obtaining the reference tokenizer, obtaining the fast
    tokenizer, saving the fast tokenizer to the fixed local directory,
    loading it again from that directory, obtaining the model, encoding
    the fixed sample sentence (which is not ASCII text), running the model
    on the encoding, and printing the encoding and the last hidden state.
    Every run performs a prefix of these steps.  When no call fails it
    performs them all, each on the handles obtained before, and the exit
    status is 0.  When a call fails the exception is not handled: the
    failed call is the last action of the run and the only failure, and
    the process ends with status 1. *)
Theorem conversion_steps (w : World) :
  let x := run respond (create_token str_BatchEncoding last_hidden_state str_Tensor) w in
  (exists rest, map step_of (log_of x) ++ rest = script_steps) /\
  existsb (fun c => (128 <=? nat_of_ascii c)%nat) (list_ascii_of_string sample_text)
  = true /\
  match failures (log_of x) with
  | [] =>
      outcome_of x = Returned tt /\
      exit_status (outcome_of x) = 0%Z /\
      exists slow fast tok bert inputs outputs,
        log_of x = transcript str_BatchEncoding last_hidden_state str_Tensor
                     slow fast tok bert inputs outputs
  | e :: more =>
      more = [] /\
      outcome_of x = Raised e /\
      exit_status (outcome_of x) = 1%Z /\
      exists pre X
             (ev : createE BertTokenizer BertTokenizerFast BertModel BatchEncoding
                           ModelOutput X),
        log_of x = pre ++ [Called ev (Raise e)]
  end.
Proof.
  cbv zeta. unfold create_token.
  run_step.
  destruct (respond _ Import_transformers w) as [[[] | e] w1]; cbn [fst snd];
    [| raised_case].
  run_step.
  destruct (respond _ (BertTokenizer_from_pretrained model_id) w1)
    as [[slow | e] w2]; cbn [fst snd]; [| raised_case].
  run_step.
  destruct (respond _ (BertTokenizerFast_from_pretrained model_id) w2)
    as [[fast | e] w3]; cbn [fst snd]; [| raised_case].
  run_step.
  destruct (respond _ (save_pretrained fast local_dir) w3)
    as [[[] | e] w4]; cbn [fst snd]; [| raised_case].
  run_step.
  destruct (respond _ (BertTokenizerFast_from_pretrained local_dir) w4)
    as [[tok | e] w5]; cbn [fst snd]; [| raised_case].
  run_step.
  destruct (respond _ (BertModel_from_pretrained model_id) w5)
    as [[bert | e] w6]; cbn [fst snd]; [| raised_case].
  run_step.
  destruct (respond _ (tokenizer_call tok sample_text "pt") w6)
    as [[inputs | e] w7]; cbn [fst snd]; [| raised_case].
  run_step.
  destruct (respond _ (model_call bert inputs) w7)
    as [[outputs | e] w8]; cbn [fst snd]; [| raised_case].
  run_step. rewrite run_print.
  cbn [log_of outcome_of exit_status fst snd app failures flat_map map step_of].
  split; [exists []; reflexivity |].
  split; [reflexivity |].
  split; [reflexivity | split; [reflexivity |]].
  exists slow, fast, tok, bert, inputs, outputs. reflexivity.
Qed.

End CreateTokenFacts.

(* ================================================================== *)
(** ** The scripts on the small environments *)

Example percentage_one_third :
  format_f 2 (float_mul_int (int_true_div 1 3) 100) = "33.33".
Proof. vm_compute. reflexivity. Qed.

(** The model of the percentage agrees with the machine's floats on every
    count [c <= n] for [n] up to 64, and on some large counts. *)
Example percentage_agrees_with_machine :
  let pairs :=
    flat_map (fun n => map (fun c => (Z.of_nat c, Z.of_nat n)) (seq 0 (S n))) (seq 1 64)
    ++ [ (81, 86); (69, 75); (1, 2001); (123456789, 9007199254740991);
         (1, 9007199254740991); (9007199254740990, 9007199254740991) ]%Z in
  map (fun p => float_mul_int (int_true_div (fst p) (snd p)) 100) pairs
  = map (fun p => machine_percentage (fst p) (snd p)) pairs.
Proof. vm_compute. reflexivity. Qed.

(** Without the bound of [sys.maxsize] the quotient can underflow: one
    unknown token among [2^1080] would give the percentage 0.0. *)
Example percentage_underflows_beyond_any_list :
  float_gt_zero (float_mul_int (int_true_div 1 (2 ^ 1080)) 100) = false.
Proof. vm_compute. reflexivity. Qed.

(** What is printed is rounded: one unknown token among 2001 prints as 0.0
    in the summary, though the percentage itself is above zero. *)
Example printed_percentage_is_rounded :
  format_f 1 (float_mul_int (int_true_div 1 2001) 100) = "0.0" /\
  format_f 2 (float_mul_int (int_true_div 1 2001) 100) = "0.05" /\
  float_gt_zero (float_mul_int (int_true_div 1 2001) 100) = true.
Proof. vm_compute. repeat split; reflexivity. Qed.

Example percentage_one_eighth :
  format_f 1 (float_mul_int (int_true_div 1 8) 100) = "12.5".
Proof. vm_compute. reflexivity. Qed.

Example format_5d_pads :
  format_5d 42 = "   42" /\ format_5d 123456 = "123456".
Proof. vm_compute. split; reflexivity. Qed.

(** The hub answers four of the five requests: four results, one error
    report, and status 0 although one line of the summary says FAIL. *)
Example flaky_run :
  let x := run flaky_hub verify_unk_bert 0%nat in
  exit_status (outcome_of x) = 0%Z /\
  world_of x = 5%nat /\
  filter (fun l => prefix pass_mark l || prefix fail_mark l || prefix "❌ ERROR" l)
         (stdout_lines (log_of x))
  = [ "❌ ERROR: Connection error";
      "✅ PASS bert-base-uncased on Hindi (Devanagari)";
      "✅ PASS bert-base-uncased on Tamil";
      "✅ PASS bert-base-uncased on English";
      "❌ FAIL bert-base-multilingual-uncased on Hindi (Devanagari)" ].
Proof. vm_compute. repeat split; reflexivity. Qed.

Example conversion_run_complete :
  let x := run (scripted 100) create_token_scripted 0%nat in
  exit_status (outcome_of x) = 0%Z /\ map step_of (log_of x) = script_steps.
Proof. vm_compute. split; reflexivity. Qed.

Example conversion_run_save_fails :
  let x := run (scripted 3) create_token_scripted 0%nat in
  exit_status (outcome_of x) = 1%Z /\
  map step_of (log_of x)
  = [ ImportLibrary; LoadReferenceTokenizer model_id; LoadFastTokenizer model_id;
      SaveFastTokenizer local_dir ].
Proof. vm_compute. split; reflexivity. Qed.

(** C1 on the first test case, answered by [ascii_tokenizer]. *)
Lemma unk_percentage_formula_witness :
  let tc := case 0 in
  let tokens := ascii_tokens (ascii_ids (tc_text tc)) in
  exists r log,
    run flaky_hub (test_tokenizer (tc_model tc) (tc_text tc) (tc_language tc)) 0%nat
    = (Returned r, 1%nat, log) /\
    unk_percentage r = spec_percentage tokens (unk_token ascii_tokenizer) /\
    (List.length tokens = 0%nat -> unk_percentage r = float_zero).
Proof.
  exact (proj1 (unk_percentage_formula nat flaky_hub)
               (case 0) 0%nat 1%nat ascii_tokenizer
               (ascii_ids (tc_text (case 0)))
               (ascii_tokens (ascii_ids (tc_text (case 0))))
               eq_refl eq_refl eq_refl).
Defined.

(** C4 on the first test case, answered by [ascii_tokenizer]. *)
Lemma unk_count_counts_positions_witness :
  let tc := case 0 in
  let tokens := ascii_tokens (ascii_ids (tc_text tc)) in
  exists r log,
    run flaky_hub (test_tokenizer (tc_model tc) (tc_text tc) (tc_language tc)) 0%nat
    = (Returned r, 1%nat, log) /\
    unk_count r
    = Z.of_nat (List.length (unk_positions tokens (unk_token ascii_tokenizer))).
Proof.
  exact (proj1 (unk_count_counts_positions nat flaky_hub)
               (case 0) 0%nat 1%nat ascii_tokenizer
               (ascii_ids (tc_text (case 0)))
               (ascii_tokens (ascii_ids (tc_text (case 0))))
               eq_refl eq_refl eq_refl).
Defined.

(** C10 on the record of the first test case: 81 unknown tokens of 86. *)
Lemma percentage_positive_iff_count_positive_witness :
  let tc := case 0 in
  let ids := ascii_ids (tc_text tc) in
  let tokens := ascii_tokens ids in
  let r := stats_of (tc_model tc) (tc_language tc) ascii_tokenizer tokens in
  processed flaky_hub tc ascii_tokenizer ids tokens r /\
  (token_count r <= sys_maxsize)%Z /\
  (float_gt_zero (unk_percentage r) = true <-> (0 < unk_count r)%Z) /\
  (forall x : bool,
      has_unk {| measured := r; expect_unk := x |} = float_gt_zero (unk_percentage r)) /\
  (token_count r = 0%Z -> unk_count r = 0%Z /\ unk_percentage r = float_zero).
Proof.
  cbv zeta.
  assert (Hp : processed flaky_hub (case 0) ascii_tokenizer
                 (ascii_ids (tc_text (case 0)))
                 (ascii_tokens (ascii_ids (tc_text (case 0))))
                 (stats_of (tc_model (case 0)) (tc_language (case 0)) ascii_tokenizer
                    (ascii_tokens (ascii_ids (tc_text (case 0))))))
    by (apply (test_tokenizer_returns nat flaky_hub (case 0) 0%nat 1%nat); reflexivity).
  assert (Hm : (token_count
                  (stats_of (tc_model (case 0)) (tc_language (case 0)) ascii_tokenizer
                     (ascii_tokens (ascii_ids (tc_text (case 0))))) <= sys_maxsize)%Z)
    by (vm_compute; discriminate).
  split; [exact Hp | split; [exact Hm |]].
  exact (percentage_positive_iff_count_positive nat flaky_hub _ _ _ _ _ Hp Hm).
Defined.

(** C3 on the second test case, whose request the hub answers with a
    connection error. *)
Lemma failed_case_is_skipped_witness :
  let tc := case 1 in
  let rest := skipn 2 test_cases in
  let e := mk_exn OtherError "Connection error" in
  let log1 := map Printed (banner (tc_model tc) (tc_text tc) (tc_language tc))
                ++ [Called (AutoTokenizer_from_pretrained (tc_model tc)) (Raise e)] in
  run flaky_hub (test_tokenizer (tc_model tc) (tc_text tc) (tc_language tc)) 1%nat
  = (Raised e, 2%nat, log1) /\
  run flaky_hub (loop_body [english_entry] tc) 1%nat
  = (Returned [english_entry], 2%nat, log1 ++ [Printed (error_report e)]) /\
  run flaky_hub (for_test_cases (tc :: rest) [english_entry]) 1%nat
  = (let '(o, w', log') := run flaky_hub (for_test_cases rest [english_entry]) 2%nat in
     (o, w', (log1 ++ [Printed (error_report e)]) ++ log')).
Proof.
  cbv zeta.
  assert (H : run flaky_hub
                (test_tokenizer (tc_model (case 1)) (tc_text (case 1))
                   (tc_language (case 1))) 1%nat
              = (Raised (mk_exn OtherError "Connection error"), 2%nat,
                 map Printed (banner (tc_model (case 1)) (tc_text (case 1))
                                (tc_language (case 1)))
                   ++ [Called (AutoTokenizer_from_pretrained (tc_model (case 1)))
                         (Raise (mk_exn OtherError "Connection error"))]))
    by (vm_compute; reflexivity).
  split; [exact H |].
  exact (failed_case_is_skipped nat flaky_hub (case 1) (skipn 2 test_cases)
           [english_entry] 1%nat 2%nat _ _ H).
Defined.

(** C7 with the library installed, and without it. *)
Lemma exit_codes_witness :
  (outcome_of (run flaky_hub verify_unk_bert 0%nat) = Returned tt /\
   exit_status (outcome_of (run flaky_hub verify_unk_bert 0%nat)) = 0%Z) /\
  exit_status (outcome_of (run no_transformers verify_unk_bert 0%nat)) = 1%Z /\
  outcome_of (run no_transformers verify_unk_bert 0%nat) = Exited 1%Z.
Proof.
  split; [exact (exit_codes nat flaky_hub 0%nat) |].
  split; [exact (proj1 (exit_codes nat no_transformers 0%nat)) |].
  exact (proj1 (proj2 (exit_codes nat no_transformers 0%nat) eq_refl)).
Defined.

(* ================================================================== *)
(** ** Further properties of [test_tokenizer] *)

Section CountingMore.

Lemma count_occ_all (tokens : list string) (unk : string) :
  count_occ string_dec tokens unk = List.length tokens <->
  Forall (fun t => t = unk) tokens.
Proof.
  induction tokens as [| t tokens IH]; [split; [constructor | reflexivity] |].
  cbn [count_occ List.length].
  pose proof (count_occ_bound string_dec unk tokens) as Hb.
  destruct (string_dec t unk) as [Heq | Hneq]; split; intros H.
  - constructor; [exact Heq | apply IH; lia].
  - inversion H as [| ? ? _ Hrest]; subst. f_equal. apply IH. exact Hrest.
  - lia.
  - inversion H as [| ? ? Hhd _]; subst. contradiction.
Qed.

(** The quotient of a positive integer by itself is the float 1.0. *)
Lemma int_true_div_self (n : Z) :
  (0 < n)%Z -> int_true_div n n = S754_finite false 4503599627370496 (-52).
Proof.
  intros Hn. destruct n as [| p | p]; try lia.
  unfold int_true_div. cbn [exact_of_int SFdiv xorb].
  unfold SFdiv_core_binary. cbv zeta.
  replace (Zdigits2 (Zpos p) + 0 - (Zdigits2 (Zpos p) + 0))%Z with 0%Z by lia.
  change (Z.min (fexp prec emax 0) (0 - 0)) with (-53)%Z.
  change (0 - 0 - -53)%Z with 53%Z. cbv iota.
  rewrite Z.shiftl_mul_pow2 by lia.
  assert (Hq : (Zpos p * 2 ^ 53 / Zpos p = 2 ^ 53)%Z)
    by (rewrite Z.mul_comm; apply Z.div_mul; lia).
  assert (Hr : ((Zpos p * 2 ^ 53) mod Zpos p = 0)%Z)
    by (rewrite Z.mul_comm; apply Z.mod_mul; lia).
  unfold Z.div in Hq. unfold Z.modulo in Hr.
  destruct (Z.div_eucl (Zpos p * 2 ^ 53) (Zpos p)) as [q r].
  subst q r.
  unfold new_location, new_location_even, new_location_odd. cbn [Z.eqb].
  destruct (Z.even (Zpos p)); vm_compute; reflexivity.
Qed.

End CountingMore.

Section TestTokenizerMore.

Variable World : Type.
Variable respond : forall X : Type, verifyE X -> World -> result X * World.

(** X3.  The dictionary [test_tokenizer] returns names the model and the
    language it was called with, counts all the tokens, and never counts
    more unknown tokens than tokens. *)
Theorem stats_are_consistent
        (tc : test_case) (tk : Tokenizer) (ids : list Z) (tokens : list string)
        (r : stats) :
  processed respond tc tk ids tokens r ->
  model r = tc_model tc /\
  language r = tc_language tc /\
  token_count r = Z.of_nat (List.length tokens) /\
  (0 <= unk_count r <= token_count r)%Z.
Proof.
  intros Hproc. rewrite (processed_stats_of _ respond tc tk ids tokens r Hproc).
  cbn [model language token_count unk_count stats_of].
  repeat split; try reflexivity; apply count_unk_bounds.
Qed.

(** X4.  The presence flag of the summary is set exactly when the unknown-token
    string occurs among the tokens; the count is 0 exactly when it does not
    occur, and equals the number of tokens exactly when every token is the
    unknown-token string.  So the status line says PASS exactly when the
    unknown-token string occurs if and only if the case expects it. *)
Theorem has_unk_iff_unknown_token_present
        (tc : test_case) (tk : Tokenizer) (ids : list Z) (tokens : list string)
        (r : stats) (expected : bool) :
  processed respond tc tk ids tokens r ->
  let e := {| measured := r; expect_unk := expected |} in
  (has_unk e = true <-> In (unk_token tk) tokens) /\
  (unk_count r = 0%Z <-> ~ In (unk_token tk) tokens) /\
  (unk_count r = token_count r <-> Forall (fun t => t = unk_token tk) tokens) /\
  (prefix pass_mark (hd "" (summary_entry e)) = true <->
   (In (unk_token tk) tokens <-> expected = true)).
Proof.
  intros Hproc. cbv zeta.
  rewrite (processed_stats_of _ respond tc tk ids tokens r Hproc).
  assert (Hpresent : has_unk {| measured := stats_of (tc_model tc) (tc_language tc) tk tokens;
                                expect_unk := expected |} = true
                     <-> In (unk_token tk) tokens).
  { unfold has_unk. cbn [measured unk_count stats_of].
    rewrite count_unk_count_occ, Z.ltb_lt.
    rewrite (count_occ_In string_dec tokens (unk_token tk)). lia. }
  split; [exact Hpresent | split; [| split]].
  - cbn [unk_count stats_of]. rewrite count_unk_count_occ.
    rewrite (count_occ_not_In string_dec tokens (unk_token tk)). lia.
  - cbn [unk_count token_count stats_of]. rewrite count_unk_count_occ.
    rewrite <- count_occ_all. lia.
  - unfold summary_entry. cbn [hd].
    rewrite (proj1 (status_marks _ _)).
    destruct (has_unk _) eqn:Hh; destruct expected; split; intros H;
      try reflexivity; try discriminate H.
    + split; intros _; [reflexivity | apply Hpresent; reflexivity].
    + exfalso. destruct H as [H _]. discriminate (H (proj1 Hpresent eq_refl)).
    + exfalso. destruct H as [_ H]. specialize (H eq_refl).
      apply Hpresent in H. discriminate H.
    + split; intros H'; [| discriminate H'].
      apply Hpresent in H'. discriminate H'.
Qed.

(** X5.  When the text gives at least one token and every token is the
    unknown-token string, the percentage is exactly 100 and prints as 100.00
    in the report and 100.0 in the summary. *)
Theorem all_unknown_is_100_percent
        (tc : test_case) (tk : Tokenizer) (ids : list Z) (tokens : list string)
        (r : stats) :
  processed respond tc tk ids tokens r ->
  tokens <> [] ->
  Forall (fun t => t = unk_token tk) tokens ->
  unk_percentage r = float_of_int 100 /\
  format_f 2 (unk_percentage r) = "100.00" /\
  format_f 1 (unk_percentage r) = "100.0".
Proof.
  intros Hproc Hne Hall.
  rewrite (processed_stats_of _ respond tc tk ids tokens r Hproc).
  cbn [unk_percentage stats_of].
  assert (Hc : count_unk tokens (unk_token tk) = Z.of_nat (List.length tokens))
    by (rewrite count_unk_count_occ; f_equal; apply count_occ_all; exact Hall).
  rewrite Hc. destruct tokens as [| t tokens]; [contradiction |].
  cbn [percentage_of]. rewrite int_true_div_self by (cbn [List.length]; lia).
  repeat split; vm_compute; reflexivity.
Qed.

(** X2.  The emptiness test guards the division: the expression of the script,
    evaluated with the division that raises on a zero divisor, never raises
    and gives the percentage; without the test the empty list would raise. *)
Theorem percentage_never_divides_by_zero (unk_count : Z) (tokens : list string) :
  percentage_checked unk_count tokens = Ok (percentage_of unk_count tokens) /\
  py_truediv unk_count (Z.of_nat (List.length (@nil string))) = Raise ZeroDivisionError.
Proof.
  split; [| reflexivity].
  destruct tokens as [| t tokens]; [reflexivity |].
  unfold percentage_checked, py_truediv.
  destruct (Z.eqb_spec (Z.of_nat (List.length (t :: tokens))) 0) as [H0 | _];
    [cbn [List.length] in H0; lia | reflexivity].
Qed.

End TestTokenizerMore.

Section Listing.

Lemma length_enumerate (A : Type) (l : list A) :
  forall start, List.length (enumerate start l) = List.length l.
Proof.
  induction l as [| a l IH]; intro start; [reflexivity |].
  cbn [enumerate List.length]. rewrite IH. reflexivity.
Qed.

Lemma nth_enumerate (A : Type) (l : list A) (d : A) :
  forall start i,
    (i < List.length l)%nat ->
    nth i (enumerate start l) (start + i, d)%nat = ((start + i)%nat, nth i l d).
Proof.
  induction l as [| a l IH]; intros start i Hi; [cbn in Hi; lia |].
  destruct i as [| i]; cbn [enumerate nth].
  - rewrite Nat.add_0_r. reflexivity.
  - cbn [List.length] in Hi.
    replace (start + S i)%nat with (S start + i)%nat by lia.
    apply IH. lia.
Qed.

Lemma nth_combine (A B : Type) (l1 : list A) :
  forall (l2 : list B) (i : nat) (a : A) (b : B),
    (i < List.length l1)%nat -> (i < List.length l2)%nat ->
    nth i (combine l1 l2) (a, b) = (nth i l1 a, nth i l2 b).
Proof.
  induction l1 as [| x l1 IH]; intros l2 i a b H1 H2; [cbn in H1; lia |].
  destruct l2 as [| y l2]; [cbn in H2; lia |].
  destruct i as [| i]; [reflexivity |].
  cbn [combine nth]. cbn [List.length] in H1, H2. apply IH; lia.
Qed.

End Listing.

Section TestTokenizerOutput.

Variable World : Type.
Variable respond : forall X : Type, verifyE X -> World -> result X * World.

(** X1.  [test_tokenizer] fails only when the library does: it raises the
    exception of the hub, of [encode] or of [convert_ids_to_tokens],
    unchanged, and otherwise returns its dictionary; it never exits.  It
    asks the hub once.  When it fails it has printed its banner, and the
    line about the unknown token if the tokenizer was obtained, but no
    statistics. *)
Theorem test_tokenizer_fails_only_with_the_library
        (model_name text language : string) (w : World) :
  let ev := AutoTokenizer_from_pretrained model_name in
  let x := run respond (test_tokenizer model_name text language) w in
  world_of x = snd (respond _ ev w) /\
  requested (log_of x) = [model_name] /\
  match outcome_of x with
  | Returned r =>
      exists tk ids tokens,
        fst (respond _ ev w) = Ok tk /\
        encode tk text false = Ok ids /\
        convert_ids_to_tokens tk ids = Ok tokens /\
        r = stats_of model_name language tk tokens
  | Raised e =>
      (fst (respond _ ev w) = Raise e /\
       printed (log_of x) = banner model_name text language) \/
      (exists tk,
          fst (respond _ ev w) = Ok tk /\
          (encode tk text false = Raise e \/
           exists ids, encode tk text false = Ok ids /\
                       convert_ids_to_tokens tk ids = Raise e) /\
          printed (log_of x) = banner model_name text language ++ [unk_info tk])
  | Exited _ => False
  end.
Proof.
  cbv zeta. rewrite run_test_tokenizer. cbv zeta.
  destruct (respond Tokenizer (AutoTokenizer_from_pretrained model_name) w)
    as [[tk | e] w1]; cbn [fst snd].
  2:{ unfold world_of, log_of, outcome_of. cbn [fst snd].
      rewrite requested_app, requested_Printed, printed_app, printed_map_Printed.
      split; [reflexivity | split; [reflexivity |]].
      left. split; [reflexivity | apply app_nil_r]. }
  destruct (encode tk text false) as [ids | e] eqn:Henc.
  2:{ unfold world_of, log_of, outcome_of. cbn [fst snd].
      rewrite !requested_app, requested_Printed, !printed_app, printed_map_Printed.
      split; [reflexivity | split; [reflexivity |]].
      right. exists tk. split; [reflexivity | split; [left; exact Henc | reflexivity]]. }
  destruct (convert_ids_to_tokens tk ids) as [tokens | e] eqn:Hconv.
  2:{ unfold world_of, log_of, outcome_of. cbn [fst snd].
      rewrite !requested_app, requested_Printed, !printed_app, printed_map_Printed.
      split; [reflexivity | split; [reflexivity |]].
      right. exists tk. split; [reflexivity | split; [| reflexivity]].
      right. exists ids. split; [exact Henc | exact Hconv]. }
  unfold world_of, log_of, outcome_of. cbn [fst snd].
  rewrite !requested_app, !requested_Printed.
  split; [reflexivity | split; [reflexivity |]].
  exists tk, ids, tokens. repeat split; assumption.
Qed.

(** X7.  The listing of [test_tokenizer] follows the five lines of statistics.
    It has one line for each of the first 20 positions that hold both an id
    and a token; its line number [i], counted from 0, shows the id and the
    token at position [i].  A last line tells how many tokens were left
    out, exactly when there are more than 20. *)
Theorem listing_shows_the_first_20
        (model_name text language : string) (w w' : World) (tk : Tokenizer)
        (ids : list Z) (tokens : list string) :
  respond _ (AutoTokenizer_from_pretrained model_name) w = (Ok tk, w') ->
  encode tk text false = Ok ids ->
  convert_ids_to_tokens tk ids = Ok tokens ->
  let x := run respond (test_tokenizer model_name text language) w in
  let shown := Nat.min 20 (Nat.min (List.length ids) (List.length tokens)) in
  printed (log_of x)
  = banner model_name text language ++ [unk_info tk] ++ report tk ids tokens /\
  skipn 5 (report tk ids tokens)
  = listing tk ids tokens
      ++ (if (20 <? List.length tokens)%nat
          then [ ("  ... (" ++ str_of_int (Z.of_nat (List.length tokens) - 20)
                    ++ " more tokens)")%string ]
          else []) /\
  List.length (listing tk ids tokens) = shown /\
  forall i, (i < shown)%nat ->
            nth i (listing tk ids tokens) ""
            = token_line (unk_token tk) (i, (nth i ids 0%Z, nth i tokens "")).
Proof.
  intros Hload Henc Hconv. cbv zeta.
  rewrite run_test_tokenizer. cbv zeta. rewrite Hload. cbn [fst snd].
  rewrite Henc, Hconv. unfold log_of. cbn [snd].
  assert (Hlen : List.length (combine (firstn 20 ids) (firstn 20 tokens))
                 = Nat.min 20 (Nat.min (List.length ids) (List.length tokens)))
    by (rewrite length_combine, !length_firstn; lia).
  split; [| split; [reflexivity | split]].
  - rewrite !printed_app, !printed_map_Printed. cbn [printed flat_map app].
    rewrite <- app_assoc. reflexivity.
  - unfold listing. rewrite length_map, length_enumerate. exact Hlen.
  - intros i Hi. unfold listing.
    rewrite (nth_indep _ "" (token_line (unk_token tk) (i, (0%Z, ""))))
      by (rewrite length_map, length_enumerate, Hlen; exact Hi).
    rewrite (map_nth (token_line (unk_token tk))).
    rewrite (nth_enumerate _ _ (0%Z, "") 0 i) by (rewrite Hlen; exact Hi).
    rewrite nth_combine by (rewrite length_firstn; lia).
    rewrite !nth_firstn.
    destruct (Nat.ltb_spec i 20) as [_ | Hge]; [reflexivity | lia].
Qed.

End TestTokenizerOutput.

(* ================================================================== *)
(** ** Further properties of [main] and of the module body *)

Section MainAccounting.

Variable World : Type.
Variable respond : forall X : Type, verifyE X -> World -> result X * World.

Lemma error_reports_app (l1 l2 : list (action verifyE)) :
  error_reports (l1 ++ l2) = error_reports l1 ++ error_reports l2.
Proof. unfold error_reports. rewrite printed_app. apply filter_app. Qed.

Lemma error_reports_Printed (ls : list string) :
  error_reports (map Printed ls) = filter is_error_report ls.
Proof. unfold error_reports. rewrite printed_map_Printed. reflexivity. Qed.

Lemma token_lines_are_no_error_reports (unk : string) (entries : list (nat * (Z * string))) :
  filter is_error_report (map (token_line unk) entries) = [].
Proof.
  induction entries as [| [i [token_id token]] entries IH]; [reflexivity |].
  cbn [map filter]. rewrite IH. reflexivity.
Qed.

Lemma report_has_no_error_report (tk : Tokenizer) (ids : list Z) (tokens : list string) :
  filter is_error_report (report tk ids tokens) = [].
Proof.
  unfold report. rewrite !filter_app, token_lines_are_no_error_reports.
  destruct (20 <? List.length tokens)%nat; reflexivity.
Qed.

Lemma summary_has_no_error_report (results : list result_entry) :
  filter is_error_report
         (summary_header ++ flat_map summary_entry results ++ summary_footer) = [].
Proof.
  rewrite !filter_app.
  assert (Hentries : filter is_error_report (flat_map summary_entry results) = []).
  { induction results as [| r results IH]; [reflexivity |].
    cbn [flat_map]. rewrite filter_app, IH, app_nil_r.
    unfold summary_entry, status.
    destruct (Bool.eqb (has_unk r) (expect_unk r)); reflexivity. }
  rewrite Hentries. reflexivity.
Qed.

Lemma error_report_is_error_report (e : exn) :
  error_reports [Printed (error_report e)] = [error_report e].
Proof.
  unfold error_reports, error_report, is_error_report. cbn [printed flat_map app filter].
  replace (prefix (nl ++ "❌ ERROR: ") (nl ++ "❌ ERROR: " ++ exn_str e)) with true;
    [reflexivity |].
  cbn. destruct (exn_str e); reflexivity.
Qed.

(** What one call of [test_tokenizer] leaves in the output and in its
    dictionary. *)
Lemma test_tokenizer_accounting (model_name text lang : string) (w : World) :
  match run respond (test_tokenizer model_name text lang) w with
  | (Returned r, _, log) =>
      model r = model_name /\ language r = lang /\ error_reports log = []
  | (Raised _, _, log) => error_reports log = []
  | (Exited _, _, _) => False
  end.
Proof.
  rewrite run_test_tokenizer. cbv zeta.
  destruct (respond Tokenizer (AutoTokenizer_from_pretrained model_name) w)
    as [[tk | e] w1]; cbn [fst snd].
  2:{ rewrite error_reports_app, error_reports_Printed. reflexivity. }
  destruct (encode tk text false) as [ids | e].
  2:{ rewrite !error_reports_app, error_reports_Printed. reflexivity. }
  destruct (convert_ids_to_tokens tk ids) as [tokens | e].
  2:{ rewrite !error_reports_app, error_reports_Printed. reflexivity. }
  split; [reflexivity | split; [reflexivity |]].
  rewrite !error_reports_app, !error_reports_Printed, report_has_no_error_report.
  reflexivity.
Qed.

(** One iteration either appends the entry of its case or prints one error
    report. *)
Lemma loop_body_accounting (results : list result_entry) (tc : test_case) (w : World) :
  exists results' w' log,
    run respond (loop_body results tc) w = (Returned results', w', log) /\
    ((exists entry, results' = results ++ [entry] /\
                    entry_key entry = case_key tc /\ error_reports log = []) \/
     (results' = results /\ exists e, error_reports log = [error_report e])).
Proof.
  rewrite run_loop_body.
  pose proof (test_tokenizer_accounting (tc_model tc) (tc_text tc) (tc_language tc) w)
    as Hacc.
  destruct (run respond (test_tokenizer (tc_model tc) (tc_text tc) (tc_language tc)) w)
    as [[[r | e | c] w'] log]; [| | contradiction].
  - destruct Hacc as (Hm & Hl & Herr). do 3 eexists. split; [reflexivity |].
    left. eexists. split; [reflexivity |]. split; [| exact Herr].
    unfold entry_key, case_key. cbn [measured expect_unk]. rewrite Hm, Hl. reflexivity.
  - do 3 eexists. split; [reflexivity |].
    right. split; [reflexivity |]. exists e.
    rewrite error_reports_app, Hacc, error_report_is_error_report. reflexivity.
Qed.

Lemma for_test_cases_accounting (cases : list test_case) :
  forall (results : list result_entry) (w : World),
  exists added w' log,
    run respond (for_test_cases cases results) w = (Returned (results ++ added), w', log) /\
    subsequence (map entry_key added) (map case_key cases) /\
    (List.length added + List.length (error_reports log) = List.length cases)%nat.
Proof.
  induction cases as [| tc rest IH]; intros results w.
  - exists [], w, []. cbn. rewrite app_nil_r.
    split; [reflexivity | split; [constructor | reflexivity]].
  - rewrite run_for_test_cases_cons.
    destruct (loop_body_accounting results tc w)
      as (results' & w1 & log1 & Hbody & [(entry & -> & Hkey & Herr) | (-> & e & Herr)]);
      rewrite Hbody; cbn [and_then];
      [destruct (IH (results ++ [entry]) w1) as (added & w' & log & Hrest & Hsub & Hlen)
      | destruct (IH results w1) as (added & w' & log & Hrest & Hsub & Hlen)];
      rewrite Hrest.
    + exists (entry :: added), w'. eexists.
      split; [rewrite <- app_assoc; reflexivity |].
      rewrite error_reports_app, Herr. cbn [map List.length app].
      split; [rewrite Hkey; constructor; exact Hsub | lia].
    + exists added, w'. eexists. split; [reflexivity |].
      rewrite error_reports_app, Herr, length_app. cbn [map List.length].
      split; [constructor; exact Hsub | lia].
Qed.

(** The output of [main] around the output of its loop. *)
Lemma run_main_around_loop (w w' : World) (results : list result_entry)
      (log : list (action verifyE)) :
  run respond (for_test_cases test_cases []) w = (Returned results, w', log) ->
  run respond main w
  = (Returned results, w',
     map Printed ["🔍 UNK Token Detection Verification Script"; rule60] ++ log
       ++ map Printed (summary_header ++ flat_map summary_entry results ++ summary_footer)).
Proof.
  intros Hloop. unfold main. do 3 run_step. rewrite Hloop. run_step.
  rewrite run_summary. cbn [run map app]. rewrite app_nil_r. reflexivity.
Qed.

Lemma main_error_reports (w w' : World) (results : list result_entry)
      (log : list (action verifyE)) :
  run respond (for_test_cases test_cases []) w = (Returned results, w', log) ->
  error_reports (log_of (run respond main w)) = error_reports log.
Proof.
  intros Hloop. rewrite (run_main_around_loop w w' results log Hloop).
  unfold log_of. cbn [snd].
  rewrite !error_reports_app, !error_reports_Printed, summary_has_no_error_report.
  rewrite app_nil_r. reflexivity.
Qed.

(** X8.  Every test case is accounted for exactly once: the number of entries
    [main] records and the number of error reports it prints add up to the
    five test cases. *)
Theorem every_case_is_accounted_for (w : World) :
  exists results,
    outcome_of (run respond main w) = Returned results /\
    (List.length results
     + List.length (error_reports (log_of (run respond main w))) = 5)%nat.
Proof.
  destruct (for_test_cases_accounting test_cases [] w)
    as (results & w' & log & Hloop & _ & Hlen).
  cbn [app] in Hloop. exists results.
  rewrite (main_error_reports w w' results log Hloop).
  rewrite (run_main_around_loop w w' results log Hloop).
  split; [reflexivity | exact Hlen].
Qed.

Lemma for_test_cases_kept (cases : list test_case) :
  forall (results : list result_entry) (w : World),
  exists w' log,
    run respond (for_test_cases cases results) w
    = (Returned (results ++ kept respond cases w), w', log).
Proof.
  induction cases as [| tc rest IH]; intros results w.
  - exists w, []. cbn. rewrite app_nil_r. reflexivity.
  - rewrite run_for_test_cases_cons, run_loop_body. cbn [kept]. cbv zeta.
    pose proof (test_tokenizer_accounting (tc_model tc) (tc_text tc) (tc_language tc) w)
      as Hacc.
    destruct (run respond (test_tokenizer (tc_model tc) (tc_text tc) (tc_language tc)) w)
      as [[[r | e | c] w1] log1]; [| | contradiction];
      unfold outcome_of, world_of; cbn [fst snd and_then].
    + destruct (IH (results ++ [ {| measured := r; expect_unk := tc_expect_unk tc |} ]) w1)
        as (w' & log & Hrest).
      rewrite Hrest, <- app_assoc. do 2 eexists. reflexivity.
    + destruct (IH results w1) as (w' & log & Hrest).
      rewrite Hrest. do 2 eexists. reflexivity.
Qed.

(** X9.  The list of entries [main] records is the list of test cases with
    the failed ones left out.  Going through the five cases in order, each
    in the world the cases before it have left: a case whose call of
    [test_tokenizer] returns a dictionary gives the next entry, made of
    that dictionary and the expectation of the case; a case whose call
    raises gives no entry.  So the entries keep the order of the test
    cases, and each carries the model, the language and the expectation of
    its case. *)
Theorem results_follow_the_test_cases (w : World) :
  exists results,
    outcome_of (run respond main w) = Returned results /\
    results = kept respond test_cases w /\
    subsequence (map entry_key results) (map case_key test_cases) /\
    (forall (tc : test_case) (rest : list test_case) (w0 : World),
        let x := run respond
                     (test_tokenizer (tc_model tc) (tc_text tc) (tc_language tc)) w0 in
        match outcome_of x with
        | Returned r =>
            kept respond (tc :: rest) w0
            = {| measured := r; expect_unk := tc_expect_unk tc |}
                :: kept respond rest (world_of x)
        | Raised _ => kept respond (tc :: rest) w0 = kept respond rest (world_of x)
        | Exited _ => False
        end).
Proof.
  destruct (for_test_cases_accounting test_cases [] w)
    as (results & w' & log & Hloop & Hsub & _).
  destruct (for_test_cases_kept test_cases [] w) as (w'' & log' & Hkept).
  cbn [app] in Hloop, Hkept. exists results.
  rewrite (run_main_around_loop w w' results log Hloop).
  split; [reflexivity |].
  split; [rewrite Hloop in Hkept; congruence |].
  split; [exact Hsub |].
  intros tc rest w0. cbv zeta. cbn [kept]. cbv zeta.
  pose proof (test_tokenizer_accounting (tc_model tc) (tc_text tc) (tc_language tc) w0)
    as Hacc.
  destruct (run respond (test_tokenizer (tc_model tc) (tc_text tc) (tc_language tc)) w0)
    as [[[r | e | c] w1] log1]; [reflexivity | reflexivity | contradiction].
Qed.

End MainAccounting.

Section MainExtremes.

Variable World : Type.
Variable respond : forall X : Type, verifyE X -> World -> result X * World.

Lemma for_test_cases_all_fail (Hfail : always_fails respond) (cases : list test_case) :
  forall (results : list result_entry) (w : World),
  exists w' log,
    run respond (for_test_cases cases results) w = (Returned results, w', log) /\
    List.length (error_reports log) = List.length cases.
Proof.
  induction cases as [| tc rest IH]; intros results w.
  - exists w, []. split; reflexivity.
  - rewrite run_for_test_cases_cons, run_loop_body, run_test_tokenizer. cbv zeta.
    destruct (Hfail (tc_model tc) w) as [e He].
    destruct (respond Tokenizer (AutoTokenizer_from_pretrained (tc_model tc)) w)
      as [r w1]. cbn [fst snd] in *. subst r. cbn [and_then].
    destruct (IH results w1) as (w' & log & Hrest & Hlen). rewrite Hrest.
    do 2 eexists. split; [reflexivity |].
    rewrite !error_reports_app, error_reports_Printed, error_report_is_error_report.
    rewrite !length_app, Hlen. reflexivity.
Qed.

Lemma for_test_cases_all_succeed (Hok : never_fails respond) (cases : list test_case) :
  forall (results : list result_entry) (w : World),
  exists added w' log,
    run respond (for_test_cases cases results) w = (Returned (results ++ added), w', log) /\
    map entry_key added = map case_key cases /\
    error_reports log = [].
Proof.
  induction cases as [| tc rest IH]; intros results w.
  - exists [], w, []. cbn. rewrite app_nil_r. repeat split; reflexivity.
  - rewrite run_for_test_cases_cons, run_loop_body.
    pose proof (test_tokenizer_accounting _ respond (tc_model tc) (tc_text tc)
                  (tc_language tc) w) as Hacc.
    rewrite run_test_tokenizer in *. cbv zeta in *.
    destruct (Hok (tc_model tc) w) as (tk & Htk & Hworks).
    destruct (Hworks (tc_text tc)) as (ids & tokens & Henc & Hconv).
    destruct (respond Tokenizer (AutoTokenizer_from_pretrained (tc_model tc)) w)
      as [r w1]. cbn [fst snd] in *. subst r.
    rewrite Henc, Hconv in *. destruct Hacc as (_ & _ & Herr). cbn [and_then].
    set (entry := {| measured := stats_of (tc_model tc) (tc_language tc) tk tokens;
                     expect_unk := tc_expect_unk tc |}).
    destruct (IH (results ++ [entry]) w1) as (added & w' & log & Hrest & Hkeys & Hnone).
    rewrite Hrest. exists (entry :: added), w'. eexists.
    split; [rewrite <- app_assoc; reflexivity |].
    split; [cbn [map]; rewrite Hkeys; reflexivity |].
    rewrite error_reports_app, Herr, Hnone. reflexivity.
Qed.

(** X10.  When the hub answers no request, [main] still returns normally: it
    records nothing, reports five errors, and ends its output with the
    summary header directly followed by the closing lines. *)
Theorem nothing_recorded_when_every_request_fails (w : World) :
  always_fails respond ->
  outcome_of (run respond main w) = Returned [] /\
  List.length (error_reports (log_of (run respond main w))) = 5%nat /\
  exists before,
    printed (log_of (run respond main w)) = before ++ summary_header ++ summary_footer.
Proof.
  intros Hfail.
  destruct (for_test_cases_all_fail Hfail test_cases [] w) as (w' & log & Hloop & Hlen).
  rewrite (main_error_reports _ respond w w' [] log Hloop).
  rewrite (run_main_around_loop _ respond w w' [] log Hloop).
  split; [reflexivity | split; [exact Hlen |]].
  unfold log_of. cbn [snd flat_map app].
  rewrite !printed_app, !printed_map_Printed.
  eexists. rewrite app_assoc. reflexivity.
Qed.

(** X11.  When the hub answers every request and the handles encode and convert,
    [main] records all five test cases, in their order and with their
    expectations, and prints no error report. *)
Theorem all_cases_recorded_when_nothing_fails (w : World) :
  never_fails respond ->
  exists results,
    outcome_of (run respond main w) = Returned results /\
    map entry_key results = map case_key test_cases /\
    error_reports (log_of (run respond main w)) = [].
Proof.
  intros Hok.
  destruct (for_test_cases_all_succeed Hok test_cases [] w)
    as (results & w' & log & Hloop & Hkeys & Hnone).
  cbn [app] in Hloop. exists results.
  rewrite (main_error_reports _ respond w w' results log Hloop).
  rewrite (run_main_around_loop _ respond w w' results log Hloop).
  repeat split; assumption.
Qed.

(** X12.  When the import of the library fails, [main] does not run: no
    tokenizer is requested and the world is as the import left it.  An
    exception that is not an [ImportError] is not handled at all: it
    propagates and nothing is printed. *)
Theorem failed_import_stops_the_script (w : World) (e : exn) :
  fst (respond _ Import_AutoTokenizer w) = Raise e ->
  let x := run respond verify_unk_bert w in
  requested (log_of x) = [] /\
  world_of x = snd (respond _ Import_AutoTokenizer w) /\
  (isinstance_ImportError e = false ->
   outcome_of x = Raised e /\ printed (log_of x) = []).
Proof.
  intros Himport. cbv zeta. unfold verify_unk_bert.
  rewrite run_bind, run_try_except, run_call.
  destruct (respond unit Import_AutoTokenizer w) as [r w1].
  cbn [fst snd] in *. subst r. cbn [or_else].
  destruct (isinstance_ImportError e); cbn.
  - split; [reflexivity | split; [reflexivity |]]. intros Hclass. discriminate Hclass.
  - split; [reflexivity | split; [reflexivity |]]. intros _. split; reflexivity.
Qed.

End MainExtremes.

(* ================================================================== *)
(** ** A further property of create_token.py *)

(** A run that stops at a failed call, before anything is printed. *)
Ltac silent_failure := right; eexists; split; reflexivity.

Section CreateTokenOutput.

Variables BertTokenizer BertTokenizerFast BertModel : Type.
Variables BatchEncoding ModelOutput Tensor : Type.
Variable str_BatchEncoding : BatchEncoding -> string.
Variable last_hidden_state : ModelOutput -> Tensor.
Variable str_Tensor : Tensor -> string.
Variable World : Type.
Variable respond :
  forall X : Type,
    createE BertTokenizer BertTokenizerFast BertModel BatchEncoding ModelOutput X ->
    World -> result X * World.

(** X13.  create_token.py prints nothing unless all its calls succeed: a run
    either completes with its two lines, the encoding and the last hidden
    state of the model output, or ends with an exception and an empty
    output. *)
Theorem conversion_prints_only_when_complete (w : World) :
  let x := run respond (create_token str_BatchEncoding last_hidden_state str_Tensor) w in
  (outcome_of x = Returned tt /\
   exists inputs outputs,
     printed (log_of x)
     = [ ("Tokenized input: " ++ str_BatchEncoding inputs)%string;
         ("Model output (last hidden state): "
            ++ str_Tensor (last_hidden_state outputs))%string ]) \/
  (exists e, outcome_of x = Raised e /\ printed (log_of x) = []).
Proof.
  cbv zeta. unfold create_token.
  run_step.
  destruct (respond _ Import_transformers w) as [[[] | e] w1]; cbn [fst snd];
    [| silent_failure].
  run_step.
  destruct (respond _ (BertTokenizer_from_pretrained model_id) w1)
    as [[slow | e] w2]; cbn [fst snd]; [| silent_failure].
  run_step.
  destruct (respond _ (BertTokenizerFast_from_pretrained model_id) w2)
    as [[fast | e] w3]; cbn [fst snd]; [| silent_failure].
  run_step.
  destruct (respond _ (save_pretrained fast local_dir) w3)
    as [[[] | e] w4]; cbn [fst snd]; [| silent_failure].
  run_step.
  destruct (respond _ (BertTokenizerFast_from_pretrained local_dir) w4)
    as [[tok | e] w5]; cbn [fst snd]; [| silent_failure].
  run_step.
  destruct (respond _ (BertModel_from_pretrained model_id) w5)
    as [[bert | e] w6]; cbn [fst snd]; [| silent_failure].
  run_step.
  destruct (respond _ (tokenizer_call tok sample_text "pt") w6)
    as [[inputs | e] w7]; cbn [fst snd]; [| silent_failure].
  run_step.
  destruct (respond _ (model_call bert inputs) w7)
    as [[outputs | e] w8]; cbn [fst snd]; [| silent_failure].
  run_step. rewrite run_print.
  left. split; [reflexivity |]. exists inputs, outputs. reflexivity.
Qed.

End CreateTokenOutput.

(* ================================================================== *)
(** ** The range of the percentage *)

Section Binary64Bounds.

Local Open Scope Z_scope.

Lemma loc_of_shr_record_of_loc (m : Z) (l : location) :
  loc_of_shr_record (shr_record_of_loc m l) = l.
Proof. destruct l as [| []]; reflexivity. Qed.

Lemma round_nearest_even_le (m : Z) (l : location) :
  round_nearest_even m l <= m + 1 /\ (l = loc_Exact -> round_nearest_even m l = m).
Proof.
  destruct l as [| []]; cbn [round_nearest_even]; split; try lia; try discriminate;
    try reflexivity.
  destruct (Z.even m); lia.
Qed.

Lemma shr_1_exact (mrs : shr_record) (c : Z) :
  shr_m mrs = c * 2 -> 0 <= c -> shr_r mrs = false -> shr_s mrs = false ->
  shr_1 mrs = {| shr_m := c; shr_r := false; shr_s := false |}.
Proof.
  destruct mrs as [m r s]. cbn [shr_m shr_r shr_s]. intros -> Hc -> ->.
  destruct c as [| p | p]; try lia; [reflexivity |].
  replace (Zpos p * 2) with (Zpos p~0) by lia. reflexivity.
Qed.

Lemma iter_shr_1_exact (k : positive) :
  forall (mrs : shr_record) (c : Z),
    shr_m mrs = c * 2 ^ Zpos k -> 0 <= c -> shr_r mrs = false -> shr_s mrs = false ->
    iter_pos shr_1 k mrs = {| shr_m := c; shr_r := false; shr_s := false |}.
Proof.
  induction k as [k IH | k IH |]; intros mrs c Hm Hc Hr Hs; cbn [iter_pos].
  - assert (Hp : 0 < 2 ^ Zpos k) by (apply Z.pow_pos_nonneg; lia).
    rewrite (shr_1_exact mrs (c * 2 ^ Zpos k * 2 ^ Zpos k)); try assumption; try nia.
    + rewrite (IH {| shr_m := c * 2 ^ Zpos k * 2 ^ Zpos k; shr_r := false; shr_s := false |}
                  (c * 2 ^ Zpos k)); try reflexivity; try nia.
      apply IH; try reflexivity; assumption.
    + rewrite Hm, (Pos2Z.inj_xI k).
      replace (2 * Zpos k + 1) with (Zpos k + Zpos k + 1) by lia.
      rewrite !Z.pow_add_r by lia. rewrite Z.pow_1_r. ring.
  - assert (Hp : 0 < 2 ^ Zpos k) by (apply Z.pow_pos_nonneg; lia).
    rewrite (IH mrs (c * 2 ^ Zpos k)); try assumption; try nia.
    + apply IH; try reflexivity; assumption.
    + rewrite Hm, (Pos2Z.inj_xO k).
      replace (2 * Zpos k) with (Zpos k + Zpos k) by lia.
      rewrite Z.pow_add_r by lia. ring.
  - apply shr_1_exact; assumption.
Qed.


(** One shift to the target exponent keeps a mantissa at or below the bound
    [K * 2^(-e)], and strictly below it when a part was shifted out. *)
Lemma shr_fexp_le (m e K : Z) (l : location) :
  0 < m -> e <= 0 -> 0 < K < 2 ^ 53 ->
  m <= K * 2 ^ (- e) ->
  (l <> loc_Exact -> m < K * 2 ^ (- e)) ->
  let mrs := fst (shr_fexp prec emax m e l) in
  let e1 := snd (shr_fexp prec emax m e l) in
  e1 <= 0 /\
  shr_m mrs <= K * 2 ^ (- e1) /\
  (loc_of_shr_record mrs <> loc_Exact -> shr_m mrs < K * 2 ^ (- e1)).
Proof.
  intros Hm He HK Hle Hlt. cbv zeta.
  destruct (Zdigits2_bounds m Hm) as [Hdpos [Hlo Hhi]].
  unfold shr_fexp, shr, fexp, emin, prec, emax.
  set (d := Zdigits2 m) in *.
  assert (Hd : d + e <= 53).
  { assert (H1 : 2 ^ (d - 1) < 2 ^ (53 - e)).
    { apply Z.le_lt_trans with m; [exact Hlo |].
      apply Z.le_lt_trans with (K * 2 ^ (- e)); [exact Hle |].
      replace (53 - e) with (53 + - e) by lia. rewrite Z.pow_add_r by lia.
      apply Z.mul_lt_mono_pos_r; [apply Z.pow_pos_nonneg; lia | lia]. }
    apply Z.pow_lt_mono_r_iff in H1; lia. }
  destruct (Z.max (d + e - 53) (3 - 1024 - 53) - e) as [| k | k] eqn:Hn;
    cbn [fst snd]; rewrite ?shr_record_of_loc_m, ?loc_of_shr_record_of_loc;
    try (split; [lia | split; assumption]).
  assert (He1 : e + Zpos k <= 0) by lia.
  set (N := K * 2 ^ (- (e + Zpos k))).
  assert (Hp : 0 < 2 ^ Zpos k) by (apply Z.pow_pos_nonneg; lia).
  assert (HN : K * 2 ^ (- e) = N * 2 ^ Zpos k).
  { unfold N. rewrite <- Z.mul_assoc, <- Z.pow_add_r by lia. do 2 f_equal. lia. }
  assert (HNpos : 0 <= N) by (unfold N; apply Z.mul_nonneg_nonneg;
                              [lia | apply Z.pow_nonneg; lia]).
  split; [exact He1 |].
  destruct (Z.eq_dec m (N * 2 ^ Zpos k)) as [Heq | Hneq].
  - assert (Hl : l = loc_Exact).
    { destruct l as [| c]; [reflexivity |]. exfalso.
      assert (m < K * 2 ^ (- e)) by (apply Hlt; discriminate). lia. }
    subst l. cbn [shr_record_of_loc].
    rewrite (iter_shr_1_exact k _ N) by (cbn [shr_m shr_r shr_s]; auto).
    cbn [shr_m loc_of_shr_record]. split; [lia | intros H; contradiction H; reflexivity].
  - assert (Hstrict : m < N * 2 ^ Zpos k) by lia.
    rewrite iter_shr_1_m by (rewrite shr_record_of_loc_m; lia).
    rewrite shr_record_of_loc_m.
    assert (m / 2 ^ Zpos k < N) by (apply Z.div_lt_upper_bound; lia).
    split; [lia | intros _; assumption].
Qed.

Lemma binary_round_aux_le (m e K : Z) (l : location) :
  0 < m -> -1073 <= Zdigits2 m + e -> e <= 0 -> 0 < K < 2 ^ 53 ->
  m <= K * 2 ^ (- e) ->
  (l <> loc_Exact -> m < K * 2 ^ (- e)) ->
  exists m' e',
    binary_round_aux prec emax false m e l = S754_finite false m' e' /\
    -1074 <= e' <= 0 /\ Zpos m' <= K * 2 ^ (- e').
Proof.
  intros Hm Hd He HK Hle Hlt. unfold binary_round_aux.
  pose proof (shr_fexp_positive m e l Hm Hd) as [P1 P2].
  pose proof (shr_fexp_le m e K l Hm He HK Hle Hlt) as (B1 & B2 & B3).
  cbv zeta in B1, B2, B3.
  destruct (shr_fexp prec emax m e l) as [mrs' e1]. cbn [fst snd] in *.
  set (m2 := round_nearest_even (shr_m mrs') (loc_of_shr_record mrs')).
  assert (Hm2 : 0 < m2)
    by (pose proof (round_nearest_even_ge (shr_m mrs') (loc_of_shr_record mrs')); lia).
  assert (Hm2le : m2 <= K * 2 ^ (- e1)).
  { destruct (round_nearest_even_le (shr_m mrs') (loc_of_shr_record mrs')) as [Hup Hex].
    fold m2 in Hup, Hex.
    destruct (loc_of_shr_record mrs') as [| c] eqn:Hloc.
    - rewrite Hex by reflexivity. exact B2.
    - assert (shr_m mrs' < K * 2 ^ (- e1)) by (apply B3; discriminate). lia. }
  assert (Hd2 : -1073 <= Zdigits2 m2 + e1)
    by (destruct (Zdigits2_bounds m2 Hm2); lia).
  pose proof (shr_fexp_positive m2 e1 loc_Exact Hm2 Hd2) as [P3 P4].
  pose proof (shr_fexp_le m2 e1 K loc_Exact Hm2 B1 HK Hm2le) as (B4 & B5 & _);
    [intros H; contradiction H; reflexivity |].
  cbv zeta in B4, B5.
  destruct (shr_fexp prec emax m2 e1 loc_Exact) as [mrs'' e2]. cbn [fst snd] in *.
  destruct (shr_m mrs'') as [| p | p] eqn:Hm''; try lia.
  exists p, e2.
  destruct (Z.leb_spec e2 (emax - prec)) as [_ | Hbig];
    [| unfold emax, prec in Hbig; lia].
  split; [reflexivity | split; [lia | exact B5]].
Qed.

Lemma new_location_exact (n : Z) : new_location n 0 = loc_Exact.
Proof.
  unfold new_location, new_location_even, new_location_odd.
  destruct (Z.even n); reflexivity.
Qed.

(** The quotient of [c] by [n >= c] rounds to a float that is at most 1. *)
Lemma int_true_div_le_one (c n : Z) :
  0 < c <= n -> n < 2 ^ 1074 ->
  exists m e,
    int_true_div c n = S754_finite false m e /\
    -1074 <= e <= 0 /\ Zpos m <= 2 ^ (- e).
Proof.
  intros [Hc Hcn] Hbound.
  assert (Hn : 0 < n) by lia.
  destruct c as [| pc | pc]; try lia. destruct n as [| pn | pn]; try lia.
  unfold int_true_div. cbn [exact_of_int SFdiv xorb].
  unfold SFdiv_core_binary. cbv zeta.
  destruct (Zdigits2_bounds (Zpos pc) Hc) as [Hd1 [Hlo1 Hhi1]].
  destruct (Zdigits2_bounds (Zpos pn) Hn) as [Hd2 [Hlo2 Hhi2]].
  set (d1 := Zdigits2 (Zpos pc)) in *. set (d2 := Zdigits2 (Zpos pn)) in *.
  set (e' := Z.min (fexp prec emax (d1 + 0 - (d2 + 0))) (0 - 0)).
  assert (He' : -1074 <= e' <= 0) by (unfold e', fexp, emin, prec, emax; lia).
  assert (Hcase : e' = -1074 \/ d2 <= d1 - 1 - e')
    by (unfold e', fexp, emin, prec, emax; lia).
  set (m' := match 0 - 0 - e' with
             | Z0 => Zpos pc
             | Zpos _ => Z.shiftl (Zpos pc) (0 - 0 - e')
             | Zneg _ => 0
             end).
  assert (Hm' : m' = Zpos pc * 2 ^ (- e')).
  { unfold m'. destruct (0 - 0 - e') as [| s | s] eqn:Hs; try lia.
    - replace (- e') with 0 by lia. rewrite Z.pow_0_r. lia.
    - rewrite Z.shiftl_mul_pow2 by lia. f_equal. f_equal. lia. }
  assert (Hpow : 0 < 2 ^ (- e')) by (apply Z.pow_pos_nonneg; lia).
  assert (Hge : Zpos pn <= m').
  { rewrite Hm'. destruct Hcase as [Hlow | Hwide].
    - rewrite Hlow in *. change (- -1074) with 1074 in *.
      set (B := 2 ^ 1074) in *. clearbody B. nia.
    - apply Z.le_trans with (2 ^ d2); [lia |].
      apply Z.le_trans with (2 ^ (d1 - 1) * 2 ^ (- e')).
      + rewrite <- Z.pow_add_r by lia. apply Z.pow_le_mono_r; lia.
      + apply Z.mul_le_mono_nonneg_r; [lia | exact Hlo1]. }
  clearbody m' e'.
  pose proof (Z_div_mod m' (Zpos pn) ltac:(lia)) as Hdm.
  destruct (Z.div_eucl m' (Zpos pn)) as [q r] eqn:Hdiv.
  destruct Hdm as [Hsplit Hr].
  assert (Hqpos : 0 < q) by nia.
  assert (Hqle : q <= 1 * 2 ^ (- e')) by nia.
  assert (Hqlt : new_location (Zpos pn) r <> loc_Exact -> q < 1 * 2 ^ (- e')).
  { intros Hloc. destruct (Z.eq_dec r 0) as [-> | Hr0];
      [contradiction Hloc; apply new_location_exact | nia]. }
  destruct (binary_round_aux_le q e' 1 (new_location (Zpos pn) r))
    as (m & e & Hres & Hbe & Hbm); try assumption; try lia.
  - destruct (Zdigits2_bounds q Hqpos). lia.
  - exists m, e. rewrite Z.mul_1_l in Hbm. auto.
Qed.

Lemma float_mul_int_100_le (m : positive) (e : Z) :
  -1074 <= e <= 0 -> Zpos m <= 2 ^ (- e) ->
  exists m' e',
    float_mul_int (S754_finite false m e) 100 = S754_finite false m' e' /\
    e' <= 0 /\ Zpos m' <= 100 * 2 ^ (- e').
Proof.
  intros He Hm. unfold float_mul_int.
  change (float_of_int 100) with (S754_finite false 7036874417766400 (-46)).
  cbn [SFmul xorb].
  assert (Hpow : 0 < 2 ^ (- e)) by (apply Z.pow_pos_nonneg; lia).
  destruct (binary_round_aux_le (Zpos (m * 7036874417766400)) (e + -46) 100 loc_Exact)
    as (m' & e' & Hres & Hbe & Hbm); try lia.
  - assert (Hp : 0 < Zpos (m * 7036874417766400)) by lia.
    destruct (Zdigits2_bounds _ Hp) as [Hd [Hlo Hhi]].
    set (d := Zdigits2 (Zpos (m * 7036874417766400))) in *.
    assert (53 <= d); [| lia].
    destruct (Z_lt_le_dec d 53) as [Hlt | Hok]; [| exact Hok]. exfalso.
    assert (2 ^ d <= 2 ^ 52) by (apply Z.pow_le_mono_r; lia).
    change (2 ^ 52) with 4503599627370496 in *.
    rewrite Pos2Z.inj_mul in Hhi. nia.
  - replace (- (e + -46)) with (46 + - e) by lia.
    rewrite Z.pow_add_r by lia. change (2 ^ 46) with 70368744177664.
    rewrite Pos2Z.inj_mul. nia.
  - intros H. contradiction H. reflexivity.
  - exists m', e'. split; [exact Hres | split; [lia | exact Hbm]].
Qed.

(** A percentage of [c] out of [n >= c] lies between 0 and 100. *)
Lemma percentage_bounds (c n : Z) :
  0 <= c <= n -> 0 < n < 2 ^ 1074 ->
  float_nonneg (float_mul_int (int_true_div c n) 100) /\
  float_le_int (float_mul_int (int_true_div c n) 100) 100.
Proof.
  intros [Hc Hcn] [Hn Hbound].
  destruct (Z.eq_dec c 0) as [-> | Hc0].
  - rewrite percentage_zero by exact Hn. split; [exact I | cbn; lia].
  - destruct (int_true_div_le_one c n) as (m & e & -> & He & Hm); try lia.
    destruct (float_mul_int_100_le m e He Hm) as (m' & e' & -> & He' & Hm').
    split; [reflexivity |].
    cbn [float_le_int]. destruct e' as [| p | p]; try lia. exact Hm'.
Qed.

End Binary64Bounds.

Section PercentageRange.

Variable World : Type.
Variable respond : forall X : Type, verifyE X -> World -> result X * World.

(** X6.  The percentage of every dictionary [test_tokenizer] returns lies
    between 0 and 100 (for at most [sys.maxsize] tokens): rounding the
    quotient and the product never takes it outside. *)
Theorem percentage_is_between_0_and_100
        (tc : test_case) (tk : Tokenizer) (ids : list Z) (tokens : list string)
        (r : stats) :
  processed respond tc tk ids tokens r ->
  (token_count r <= sys_maxsize)%Z ->
  float_nonneg (unk_percentage r) /\ float_le_int (unk_percentage r) 100.
Proof.
  intros Hproc Hmax.
  rewrite (processed_stats_of _ respond tc tk ids tokens r Hproc) in *.
  cbn [unk_percentage token_count stats_of] in *.
  pose proof (count_unk_bounds tokens (unk_token tk)) as Hb.
  destruct tokens as [| t tokens]; [split; [exact I | cbn; lia] |].
  cbn [percentage_of]. apply percentage_bounds; [exact Hb |].
  split; [cbn [List.length]; lia |].
  apply Z.le_lt_trans with sys_maxsize; [exact Hmax | reflexivity].
Qed.

End PercentageRange.

(* ================================================================== *)
(** ** The further properties on the small environments *)

(** A text without tokens: the report has no listing, the percentage is 0. *)
Example empty_text_report :
  let x := run steady_hub
               (test_tokenizer (tc_model empty_text) (tc_text empty_text)
                  (tc_language empty_text)) 0%nat in
  outcome_of x
  = Returned {| model := "bert-base-uncased"; language := "English";
                token_count := 0; unk_count := 0; unk_percentage := float_zero |} /\
  skipn 6 (stdout_lines (log_of x))
  = [ ""; "UNK Token: '[UNK]' (ID: 100)"; ""; "Results:"; "  Total tokens: 0";
      "  UNK count: 0"; "  UNK percentage: 0.00%"; ""; "First 20 tokens:" ].
Proof. vm_compute. split; reflexivity. Qed.

Lemma processed_first_case :
  processed flaky_hub (case 0) ascii_tokenizer
            (ascii_ids (tc_text (case 0)))
            (ascii_tokens (ascii_ids (tc_text (case 0))))
            (stats_of (tc_model (case 0)) (tc_language (case 0)) ascii_tokenizer
                      (ascii_tokens (ascii_ids (tc_text (case 0))))).
Proof.
  apply (test_tokenizer_returns nat flaky_hub (case 0) 0%nat 1%nat); reflexivity.
Defined.

Lemma processed_devanagari_word :
  processed steady_hub devanagari_word ascii_tokenizer
            (ascii_ids (tc_text devanagari_word))
            (ascii_tokens (ascii_ids (tc_text devanagari_word)))
            (stats_of (tc_model devanagari_word) (tc_language devanagari_word)
                      ascii_tokenizer
                      (ascii_tokens (ascii_ids (tc_text devanagari_word)))).
Proof.
  apply (test_tokenizer_returns nat steady_hub devanagari_word 0%nat 1%nat); reflexivity.
Defined.

(** The first test case: 81 unknown tokens of 86. *)
Lemma stats_are_consistent_witness :
  let r := stats_of (tc_model (case 0)) (tc_language (case 0)) ascii_tokenizer
                    (ascii_tokens (ascii_ids (tc_text (case 0)))) in
  model r = tc_model (case 0) /\
  language r = tc_language (case 0) /\
  token_count r = Z.of_nat (List.length (ascii_tokens (ascii_ids (tc_text (case 0))))) /\
  (0 <= unk_count r <= token_count r)%Z.
Proof.
  exact (stats_are_consistent nat flaky_hub _ _ _ _ _ processed_first_case).
Defined.

Lemma has_unk_iff_unknown_token_present_witness :
  let tokens := ascii_tokens (ascii_ids (tc_text (case 0))) in
  let r := stats_of (tc_model (case 0)) (tc_language (case 0)) ascii_tokenizer tokens in
  let e := {| measured := r; expect_unk := true |} in
  (has_unk e = true <-> In "[UNK]" tokens) /\
  (unk_count r = 0%Z <-> ~ In "[UNK]" tokens) /\
  (unk_count r = token_count r <-> Forall (fun t => t = "[UNK]") tokens) /\
  (prefix pass_mark (hd "" (summary_entry e)) = true <->
   (In "[UNK]" tokens <-> true = true)).
Proof.
  exact (has_unk_iff_unknown_token_present nat flaky_hub _ _ _ _ _ true
           processed_first_case).
Defined.

(** A word of Devanagari letters: 18 bytes, all unknown to [ascii_tokenizer]. *)
Lemma all_unknown_is_100_percent_witness :
  let tokens := ascii_tokens (ascii_ids (tc_text devanagari_word)) in
  let r := stats_of (tc_model devanagari_word) (tc_language devanagari_word)
                    ascii_tokenizer tokens in
  tokens <> [] /\
  Forall (fun t => t = "[UNK]") tokens /\
  unk_percentage r = float_of_int 100 /\
  format_f 2 (unk_percentage r) = "100.00" /\
  format_f 1 (unk_percentage r) = "100.0".
Proof.
  cbv zeta.
  assert (Hne : ascii_tokens (ascii_ids (tc_text devanagari_word)) <> [])
    by (vm_compute; discriminate).
  assert (Hall : Forall (fun t => t = unk_token ascii_tokenizer)
                        (ascii_tokens (ascii_ids (tc_text devanagari_word))))
    by (vm_compute; repeat constructor).
  split; [exact Hne | split; [exact Hall |]].
  exact (all_unknown_is_100_percent nat steady_hub _ _ _ _ _
           processed_devanagari_word Hne Hall).
Defined.

Lemma percentage_is_between_0_and_100_witness :
  let r := stats_of (tc_model (case 0)) (tc_language (case 0)) ascii_tokenizer
                    (ascii_tokens (ascii_ids (tc_text (case 0)))) in
  (token_count r <= sys_maxsize)%Z /\
  float_nonneg (unk_percentage r) /\ float_le_int (unk_percentage r) 100.
Proof.
  cbv zeta.
  assert (Hm : (token_count
                  (stats_of (tc_model (case 0)) (tc_language (case 0)) ascii_tokenizer
                     (ascii_tokens (ascii_ids (tc_text (case 0))))) <= sys_maxsize)%Z)
    by (vm_compute; discriminate).
  split; [exact Hm |].
  exact (percentage_is_between_0_and_100 nat flaky_hub _ _ _ _ _
           processed_first_case Hm).
Defined.

(** The English case: 28 tokens, so 20 lines and a line about 8 more. *)
Lemma listing_shows_the_first_20_witness :
  let tc := case 3 in
  let ids := ascii_ids (tc_text tc) in
  let tokens := ascii_tokens ids in
  List.length (listing ascii_tokenizer ids tokens) = 20%nat /\
  nth 19 (listing ascii_tokenizer ids tokens) ""
  = token_line "[UNK]" (19%nat, (nth 19 ids 0%Z, nth 19 tokens "")) /\
  skipn 5 (report ascii_tokenizer ids tokens)
  = listing ascii_tokenizer ids tokens ++ ["  ... (8 more tokens)"].
Proof.
  cbv zeta.
  pose proof (listing_shows_the_first_20 nat steady_hub
                (tc_model (case 3)) (tc_text (case 3)) (tc_language (case 3))
                0%nat 1%nat ascii_tokenizer
                (ascii_ids (tc_text (case 3)))
                (ascii_tokens (ascii_ids (tc_text (case 3))))
                eq_refl eq_refl eq_refl) as H.
  cbv zeta in H. destruct H as (_ & Hmore & Hlen & Hnth).
  split; [exact Hlen | split; [apply Hnth; vm_compute; lia | exact Hmore]].
Defined.

Lemma offline_hub_always_fails : always_fails offline_hub.
Proof. intros name w. eexists. reflexivity. Defined.

Lemma steady_hub_never_fails : never_fails steady_hub.
Proof.
  intros name w. exists ascii_tokenizer. split; [reflexivity |].
  intros text. do 2 eexists. split; reflexivity.
Defined.

Lemma nothing_recorded_when_every_request_fails_witness :
  always_fails offline_hub /\
  outcome_of (run offline_hub main 0%nat) = Returned [] /\
  List.length (error_reports (log_of (run offline_hub main 0%nat))) = 5%nat /\
  exists before,
    printed (log_of (run offline_hub main 0%nat))
    = before ++ summary_header ++ summary_footer.
Proof.
  split; [exact offline_hub_always_fails |].
  exact (nothing_recorded_when_every_request_fails nat offline_hub 0%nat
           offline_hub_always_fails).
Defined.

Lemma all_cases_recorded_when_nothing_fails_witness :
  never_fails steady_hub /\
  exists results,
    outcome_of (run steady_hub main 0%nat) = Returned results /\
    map entry_key results = map case_key test_cases /\
    error_reports (log_of (run steady_hub main 0%nat)) = [].
Proof.
  split; [exact steady_hub_never_fails |].
  exact (all_cases_recorded_when_nothing_fails nat steady_hub 0%nat
           steady_hub_never_fails).
Defined.

Lemma failed_import_stops_the_script_witness :
  let e := mk_exn OtherError "Failed to initialize torch" in
  let x := run broken_install verify_unk_bert 0%nat in
  fst (broken_install _ Import_AutoTokenizer 0%nat) = Raise e /\
  requested (log_of x) = [] /\
  world_of x = 0%nat /\
  outcome_of x = Raised e /\
  printed (log_of x) = [].
Proof.
  cbv zeta.
  destruct (failed_import_stops_the_script nat broken_install 0%nat
              (mk_exn OtherError "Failed to initialize torch") eq_refl)
    as (Hreq & Hworld & Hother).
  destruct (Hother eq_refl) as [Hout Hprinted].
  split; [reflexivity |]. repeat split; assumption.
Defined.

(** On [flaky_hub] the call for the second case raises and the others
    return: the Kannada case, and only it, is left out. *)
Example kept_on_flaky_hub :
  map (fun tc => match outcome_of (run flaky_hub
                                       (test_tokenizer (tc_model tc) (tc_text tc)
                                          (tc_language tc)) 1%nat) with
                 | Raised _ => true
                 | _ => false
                 end) [case 1]
  = [true] /\
  map entry_key (kept flaky_hub test_cases 0%nat)
  = [ case_key (case 0); case_key (case 2); case_key (case 3); case_key (case 4) ].
Proof. vm_compute. split; reflexivity. Qed.

(** In the run of [flaky_hub] four entries and one error report make five;
    the Kannada case is the one left out. *)
Example flaky_run_accounting :
  let x := run flaky_hub main 0%nat in
  List.length (error_reports (log_of x)) = 1%nat /\
  match outcome_of x with
  | Returned results =>
      map entry_key results
      = [ ("bert-base-uncased", "Hindi (Devanagari)", true);
          ("bert-base-uncased", "Tamil", true);
          ("bert-base-uncased", "English", false);
          ("bert-base-multilingual-uncased", "Hindi (Devanagari)", false) ]
  | _ => False
  end.
Proof. vm_compute. split; reflexivity. Qed.
